(** * keygen: a shallow embedding of the Django key-generator application

    The application (keygen/models.py, keygen/views.py, keygen/urls.py) is
    three request handlers and one deferred job over a single table.  The
    handlers are sequences of calls into Django, django-rq and the Python
    standard library; those callees are modelled below, in the modules
    [python], [django] and [django_rq], as state transformers over an
    explicit [World] (database table, id sequence, job queue, clock,
    entropy source, flashed messages).  The handlers themselves are
    transcribed call by call in the modules [models], [views] and [urls]. *)

From Stdlib Require Import Ascii.
From stdpp Require Import gmap strings list fin_maps sorting.

Local Open Scope string_scope.
Local Open Scope Z_scope.

(** ** keygen/models.py : the row type *)

Module models.

(** class Secret(models.Model): the implicit AutoField [id], and the two
    declared fields.  [created] is a timestamp in microseconds. *)
Record Secret : Type := mkSecret {
  id : Z;
  created : Z;
  key : string
}.

#[global] Instance Secret_eq_dec : EqDecision Secret.
Proof. solve_decision. Defined.

(** key = models.CharField(max_length=50, ...) *)
Definition key_max_length : nat := 50.

(** class Meta: ordering = ['-created'].  [ordering a b] holds when row
    [a] may be listed before row [b]. *)
Definition ordering (a b : Secret) : Prop := created b ≤ created a.

#[global] Instance ordering_dec : RelDecision ordering.
Proof. intros a b. unfold ordering. apply _. Defined.

#[global] Instance ordering_total : Total ordering.
Proof. intros a b. unfold ordering. lia. Qed.

#[global] Instance ordering_trans : Transitive ordering.
Proof. intros a b c. unfold ordering. lia. Qed.

(** def __str__(self): return self.key *)
Definition __str__ (self : Secret) : string := key self.

End models.

(** ** The world the handlers run in *)

(** Jobs that can sit on the queue: the only function decorated with
    [@job] is [generate_bg]. *)
Inductive Job : Type := Job_generate_bg.

Inductive Level : Type := SUCCESS.

Inductive Exception : Type :=
| OperationalError   (* the database cannot be reached *)
| ConnectionError    (* the queue server cannot be reached *)
| DataError          (* value too long for the column, id out of range *)
| IntegrityError     (* duplicate primary key *)
| ValueError         (* a NUL character in a string sent to the database *)
| IndexError         (* choice from an empty sequence *)
| NoReverseMatch.    (* redirect to an unknown route name *)

Record World : Type := mkWorld {
  secrets : gmap Z models.Secret;   (* table keygen_secret, by primary key *)
  secret_id_seq : Z;                (* next value of the id sequence *)
  db_up : bool;                     (* is the database reachable *)
  queue : list Job;                 (* the default queue, oldest first *)
  queue_up : bool;                  (* is the queue server reachable *)
  clock : Z;                        (* wall clock, microseconds *)
  entropy : nat → nat;              (* the stream of random draws *)
  drawn : nat;                      (* how many draws were consumed *)
  flashed : list (Level * string)   (* messages added for the user *)
}.

Definition set_secrets (m : gmap Z models.Secret) (w : World) : World :=
  mkWorld m (secret_id_seq w) (db_up w) (queue w) (queue_up w) (clock w)
          (entropy w) (drawn w) (flashed w).
Definition set_secret_id_seq (n : Z) (w : World) : World :=
  mkWorld (secrets w) n (db_up w) (queue w) (queue_up w) (clock w)
          (entropy w) (drawn w) (flashed w).
Definition set_availability (d q : bool) (w : World) : World :=
  mkWorld (secrets w) (secret_id_seq w) d (queue w) q (clock w)
          (entropy w) (drawn w) (flashed w).
Definition set_queue (q : list Job) (w : World) : World :=
  mkWorld (secrets w) (secret_id_seq w) (db_up w) q (queue_up w) (clock w)
          (entropy w) (drawn w) (flashed w).
Definition set_clock (t : Z) (w : World) : World :=
  mkWorld (secrets w) (secret_id_seq w) (db_up w) (queue w) (queue_up w) t
          (entropy w) (drawn w) (flashed w).
Definition set_drawn (n : nat) (w : World) : World :=
  mkWorld (secrets w) (secret_id_seq w) (db_up w) (queue w) (queue_up w)
          (clock w) (entropy w) n (flashed w).
Definition set_flashed (l : list (Level * string)) (w : World) : World :=
  mkWorld (secrets w) (secret_id_seq w) (db_up w) (queue w) (queue_up w)
          (clock w) (entropy w) (drawn w) l.

(** ** Computations that may raise

    A Python call either returns a value or raises; in both cases the
    effects it performed before stay in the world. *)

Inductive Outcome (A : Type) : Type :=
| Return (a : A)
| Raise (e : Exception).
Arguments Return {A} a.
Arguments Raise {A} e.

Definition M (A : Type) : Type := World → Outcome A * World.

Definition ret {A} (a : A) : M A := λ w, (Return a, w).
Definition raise {A} (e : Exception) : M A := λ w, (Raise e, w).
Definition bind {A B} (m : M A) (k : A → M B) : M B :=
  λ w, match m w with
       | (Return a, w') => k a w'
       | (Raise e, w') => (Raise e, w')
       end.

#[global] Instance M_ret : MRet M := @ret.
#[global] Instance M_bind : MBind M := λ A B k m, bind m k.

(** The world a computation leaves, and what it produced. *)
Definition exec {A} (m : M A) (w : World) : World := snd (m w).
Definition outcome {A} (m : M A) (w : World) : Outcome A := fst (m w).

(** ** The Python standard library calls the code makes *)

Module python.

(** time.sleep(secs): the clock moves on by [secs] seconds. *)
Definition time_sleep (secs : Z) : M unit :=
  λ w, (Return (), set_clock (clock w + secs * 1000000) w).

(** random.choice(seq): one draw, reduced to an index below len(seq);
    an empty sequence raises IndexError. *)
Definition random_choice (seq : string) : M Ascii.ascii :=
  λ w, match String.get (entropy w (drawn w) `mod` String.length seq)%nat seq with
       | Some c => (Return c, set_drawn (S (drawn w)) w)
       | None => (Raise IndexError, w)
       end.

(** c in s *)
Fixpoint contains (c : Ascii.ascii) (s : string) : bool :=
  match s with
  | "" => false
  | String c' s' => Ascii.eqb c' c || contains c s'
  end.

(** s.startswith(prefix) *)
Fixpoint startswith (s prefix : string) : bool :=
  match prefix with
  | "" => true
  | String p prefix' =>
      match s with
      | "" => false
      | String c s' => Ascii.eqb c p && startswith s' prefix'
      end
  end.

(** The truth value of what [dict.get] returns: None and the empty
    string are false, every other string is true. *)
Definition truthy (v : option string) : bool :=
  match v with
  | None => false
  | Some s => negb (String.eqb s "")
  end.

End python.

(** ** The Django calls the code makes *)

Inductive HttpResponse : Type :=
| TemplateResponse (template : string)
                   (context : list (string * list models.Secret))
| HttpResponseRedirect (location : string)
| HttpResponseNotFound.

(** A request: its path and its query string, parsed into a QueryDict
    (every key carries the list of its values, in order of appearance). *)
Record HttpRequest : Type := mkRequest {
  path_info : string;
  GET : gmap string (list string)
}.

(** A lazy query over the Secret table; the code only ever builds
    [Secret.objects.all()]. *)
Inductive QuerySet : Type := QuerySet_all.

Module django.

(** django.utils.crypto.get_random_string(length, allowed_chars):
    ''.join(random.choice(allowed_chars) for i in range(length)) *)
Fixpoint get_random_string (length : nat) (allowed_chars : string)
  : M string :=
  match length with
  | O => mret ""
  | S n =>
      c ← python.random_choice allowed_chars;
      s ← get_random_string n allowed_chars;
      mret (String c s)
  end.

Definition secret_key_chars : string :=
  "abcdefghijklmnopqrstuvwxyz0123456789!@#$%^&*(-_=+)".

(** Modelled from the spec: django.core.management.utils
    .get_random_secret_key, the default of [Secret.key], belongs to the
    framework and is not under src/.  The specification calls it a
    randomly generated secret value that fits the 50-character field;
    the framework defines it as get_random_string(50, chars) over the
    50 characters of [secret_key_chars]. *)
Definition get_random_secret_key : M string :=
  get_random_string 50 secret_key_chars.

(** django.utils.timezone.now() *)
Definition timezone_now : M Z := λ w, (Return (clock w), w).

(** A string holds the UTF-8 encoding of a text: a character is a byte
    that starts one, together with the continuation bytes (10xxxxxx)
    that follow it. *)
Definition is_continuation (c : Ascii.ascii) : bool :=
  match c with
  | Ascii.Ascii _ _ _ _ _ _ b6 b7 => b7 && negb b6
  end.

Fixpoint char_length (s : string) : nat :=
  match s with
  | "" => 0
  | String c s' =>
      if is_continuation c then char_length s' else S (char_length s')
  end.

(** The first [n] characters of [s], and what comes after them. *)
Fixpoint take_chars (n : nat) (s : string) : string :=
  match s with
  | "" => ""
  | String c s' =>
      if is_continuation c then String c (take_chars n s')
      else match n with
           | O => ""
           | S n' => String c (take_chars n' s')
           end
  end.

Fixpoint drop_chars (n : nat) (s : string) : string :=
  match s with
  | "" => ""
  | String c s' =>
      if is_continuation c then drop_chars n s'
      else match n with
           | O => s
           | S n' => drop_chars n' s'
           end
  end.

Fixpoint all_spaces (s : string) : bool :=
  match s with
  | "" => true
  | String c s' => Ascii.eqb c " " && all_spaces s'
  end.

(** What a varchar(n) column stores for [s]: [s] itself when it has at
    most [n] characters; its first [n] characters when all the excess
    ones are spaces; nothing (the insert is refused) otherwise. *)
Definition varchar (n : nat) (s : string) : option string :=
  if (char_length s <=? n)%nat then Some s
  else if all_spaces (drop_chars n s) then Some (take_chars n s)
  else None.

(** id = models.AutoField(primary_key=True): a 32-bit serial column,
    whose sequence ends at 2147483647. *)
Definition AutoField_max : Z := 2147483647.

(** INSERT INTO keygen_secret (created, key) VALUES (...) RETURNING id.
    The database driver refuses a string with a NUL character; the
    column is varchar(50); the id is the next value of the sequence,
    which ends at [AutoField_max], and is the primary key. *)
Definition sql_insert (created : Z) (key : string) : M Z :=
  λ w,
    if negb (db_up w) then (Raise OperationalError, w)
    else if python.contains Ascii.zero key then (Raise ValueError, w)
    else
      match varchar models.key_max_length key with
      | None => (Raise DataError, w)
      | Some stored =>
          let i := secret_id_seq w in
          if bool_decide (AutoField_max < i) then (Raise DataError, w)
          else
            match secrets w !! i with
            | Some _ => (Raise IntegrityError, set_secret_id_seq (i + 1) w)
            | None =>
                (Return i,
                 set_secret_id_seq (i + 1)
                   (set_secrets
                      (<[i := models.mkSecret i created stored]> (secrets w))
                      w))
            end
      end.

(** Secret.objects.create(key=...): build the instance (a field left
    out takes its default, here [key]), then save it; saving stamps
    [created] (auto_now_add), inserts the row and sets the instance's
    id to the one the database returned. *)
Definition Secret_objects_create (key : option string) : M models.Secret :=
  k ← match key with
      | Some k => mret k
      | None => get_random_secret_key
      end;
  now ← timezone_now;
  i ← sql_insert now k;
  mret (models.mkSecret i now k).

(** Secret.objects.all(): builds the query, touches nothing. *)
Definition Secret_objects_all : QuerySet := QuerySet_all.

(** Iterating a query set runs
    SELECT ... FROM keygen_secret ORDER BY created DESC. *)
Definition QuerySet_iter (qs : QuerySet) : M (list models.Secret) :=
  λ w,
    if negb (db_up w) then (Raise OperationalError, w)
    else (Return (merge_sort models.ordering (map_to_list (secrets w)).*2), w).

(** QuerySet.delete(): DELETE FROM keygen_secret; returns how many rows
    went. *)
Definition QuerySet_delete (qs : QuerySet) : M nat :=
  λ w,
    if negb (db_up w) then (Raise OperationalError, w)
    else (Return (size (secrets w)), set_secrets ∅ w).

(** QueryDict.get(key): the last value given for [key], None when the
    key is absent. *)
Definition QueryDict_get (d : gmap string (list string)) (key : string)
  : option string :=
  match d !! key with
  | Some vs => last vs
  | None => None
  end.

(** messages.success(request, text) *)
Definition messages_success (request : HttpRequest) (text : string)
  : M unit :=
  λ w, (Return (), set_flashed (flashed w ++ [(SUCCESS, text)]) w).

(** Modelled from the spec: the template keygen/index.html is not under
    src/; the specification says the list view renders the records it
    fetched.  A rendered page is represented by the template's name and
    the context it was given, every query set in it iterated once. *)
Fixpoint render_context (context : list (string * QuerySet))
  : M (list (string * list models.Secret)) :=
  match context with
  | [] => mret []
  | (name, qs) :: rest =>
      rows ← QuerySet_iter qs;
      rest' ← render_context rest;
      mret ((name, rows) :: rest')
  end.

Definition render (request : HttpRequest) (template : string)
           (context : list (string * QuerySet)) : M HttpResponse :=
  context' ← render_context context;
  mret (TemplateResponse template context').

End django.

(** ** django_rq: the [@job] decorator *)

Module django_rq.

(** f.delay(): push a job for [f] on the default queue. *)
Definition delay (j : Job) : M unit :=
  λ w,
    if negb (queue_up w) then (Raise ConnectionError, w)
    else (Return (), set_queue (queue w ++ [j]) w).

End django_rq.

(** ** keygen/urls.py *)

Module urls.

Inductive Callback : Type := views_index | views_generate | views_delete.

Record URLPattern : Type := path {
  route : string;
  view : Callback;
  name : string
}.

Definition urlpatterns : list URLPattern := [
  path "" views_index "home";
  path "generate" views_generate "generate";
  path "delete" views_delete "delete"
].

(** Modelled from the spec: the project's URL configuration
    (djheroku/urls.py) is not under src/; the specification puts the
    three routes at the root path, /generate and /delete, so the
    patterns above are mounted at "/". *)
Definition reverse (viewname : string) : option string :=
  match List.find (λ p, String.eqb (name p) viewname) urlpatterns with
  | Some p => Some ("/" +:+ route p)
  | None => None
  end.

Definition resolve (path_info : string) : option Callback :=
  match path_info with
  | String "/"%char rest =>
      match List.find (λ p, String.eqb (route p) rest) urlpatterns with
      | Some p => Some (view p)
      | None => None
      end
  | _ => None
  end.

(** django.shortcuts.resolve_url(to), for a string: a relative URL is
    returned as it is; otherwise the string is reversed as a route name,
    and when that fails it is taken for a URL if it has a slash or a dot
    in it, and NoReverseMatch is raised if it has neither. *)
Definition resolve_url (to : string) : M string :=
  if python.startswith to "./" || python.startswith to "../" then mret to
  else
    match reverse to with
    | Some location => mret location
    | None =>
        if negb (python.contains "/" to) && negb (python.contains "." to)
        then raise NoReverseMatch
        else mret to
    end.

(** django.shortcuts.redirect(to) *)
Definition redirect (to : string) : M HttpResponse :=
  location ← resolve_url to;
  mret (HttpResponseRedirect location).

End urls.

(** ** keygen/views.py *)

Module views.

(** The body of the job. *)
Definition generate_bg : M unit :=
  python.time_sleep 2;;
  django.Secret_objects_create None;;
  mret ().

(** generate_bg.delay() *)
Definition generate_bg_delay : M unit := django_rq.delay Job_generate_bg.

Definition index (request : HttpRequest) : M HttpResponse :=
  let context := [("secrets", django.Secret_objects_all)] in
  django.render request "keygen/index.html" context.

Definition generate (request : HttpRequest) : M HttpResponse :=
  (if python.truthy (django.QueryDict_get (GET request) "bg") then
     generate_bg_delay;;
     django.messages_success request
       "Generating new key in background. Refresh page after two seconds to see generated key."
   else
     django.Secret_objects_create None;;
     django.messages_success request "Generated new key.");;
  urls.redirect "home".

Definition delete (request : HttpRequest) : M HttpResponse :=
  django.QuerySet_delete django.Secret_objects_all;;
  django.messages_success request "Deleted all keys.";;
  urls.redirect "home".

End views.

(** ** The running system: the web process, the worker, the environment *)

Module server.

Definition callback (c : urls.Callback) : HttpRequest → M HttpResponse :=
  match c with
  | urls.views_index => views.index
  | urls.views_generate => views.generate
  | urls.views_delete => views.delete
  end.

(** The web process: route the request to its handler. *)
Definition get_response (request : HttpRequest) : M HttpResponse :=
  match urls.resolve (path_info request) with
  | Some c => callback c request
  | None => mret HttpResponseNotFound
  end.

Definition perform (j : Job) : M unit :=
  match j with
  | Job_generate_bg => views.generate_bg
  end.

(** The worker process: take the oldest job off the queue and run it. *)
Definition work : M unit :=
  λ w,
    if negb (queue_up w) then (Raise ConnectionError, w)
    else match queue w with
         | [] => (Return (), w)
         | j :: q => perform j (set_queue q w)
         end.

(** What can happen to the system, one thing at a time.  The clock is
    the wall clock: between two events it may have moved on, or have
    been set back. *)
Inductive Event : Type :=
| Request (request : HttpRequest)
| Work
| Tick (micros : Z)
| Availability (db queue : bool).

Definition step (e : Event) (w : World) : World :=
  match e with
  | Request request => exec (get_response request) w
  | Work => exec work w
  | Tick micros => set_clock (clock w + micros) w
  | Availability d q => set_availability d q w
  end.

Fixpoint run (es : list Event) (w : World) : World :=
  match es with
  | [] => w
  | e :: es' => run es' (step e w)
  end.

(** A freshly migrated system: empty table, sequence at 1, everything
    reachable, nothing queued. *)
Definition fresh (t : Z) (e : nat → nat) : World :=
  mkWorld ∅ 1 true [] true t e 0 [].

End server.

(** The database's own invariant: a row is stored under its id, and the
    sequence is ahead of every id handed out. *)
Definition wf (w : World) : Prop :=
  map_Forall (λ i r, models.id r = i ∧ i < secret_id_seq w) (secrets w).

#[global] Instance wf_dec w : Decision (wf w).
Proof. unfold wf. apply _. Defined.

(** Building requests for the examples: a path and the parsed query. *)
Definition request_of (p : string) (q : list (string * list string))
  : HttpRequest :=
  mkRequest p (list_to_map q).

(** ** Notions used to state the properties *)

(** The row [Secret.objects.create()] stores, and the world it leaves. *)
Definition created_world (k : string) (w : World) : World :=
  let i := secret_id_seq w in
  set_secret_id_seq (i + 1)
    (set_secrets (<[i := models.mkSecret i (clock w) k]> (secrets w))
       (set_drawn (drawn w + 50) w)).

Definition notice_sync : string := "Generated new key.".
Definition notice_bg : string :=
  "Generating new key in background. Refresh page after two seconds to see generated key.".
Definition notice_delete : string := "Deleted all keys.".

Definition flash (text : string) (w : World) : World :=
  set_flashed (flashed w ++ [(SUCCESS, text)]) w.

(** ** Sample inputs *)

Module samples.

Definition dice (n : nat) : nat := (n * n `div` 7 + 3 * n)%nat.

Definition sync_request : HttpRequest := request_of "/generate" [].
Definition bg_request : HttpRequest :=
  request_of "/generate" [("bg", ["1"])].
Definition blank_bg_request : HttpRequest :=
  request_of "/generate" [("bg", [""])].
Definition index_request : HttpRequest := request_of "/" [].
Definition delete_request : HttpRequest := request_of "/delete" [].

(** Two keys made directly, a third by the worker five ticks later. *)
Definition busy : World :=
  server.run [server.Request sync_request;
              server.Tick 5;
              server.Request bg_request;
              server.Request sync_request;
              server.Work]
             (server.fresh 1000 dice).

Definition db_down : World := set_availability false true busy.
Definition queue_down : World := set_availability true false busy.

End samples.

(** The three things a step can do to the store: nothing, empty it, or
    add one row under the id the sequence hands out. *)
Inductive store_change (w w' : World) : Prop :=
| store_kept :
    secrets w' = secrets w → secret_id_seq w' = secret_id_seq w →
    store_change w w'
| store_emptied :
    secrets w' = ∅ → secret_id_seq w' = secret_id_seq w →
    store_change w w'
| store_inserted (row : models.Secret) :
    secrets w !! secret_id_seq w = None →
    models.id row = secret_id_seq w →
    secrets w' = <[secret_id_seq w := row]> (secrets w) →
    secret_id_seq w' = secret_id_seq w + 1 →
    store_change w w'.

(** The database or queue call each handler makes. *)
Definition underlying_call (c : urls.Callback) (request : HttpRequest)
  : M unit :=
  match c with
  | urls.views_index =>
      django.QuerySet_iter django.Secret_objects_all;; mret ()
  | urls.views_generate =>
      if python.truthy (django.QueryDict_get (GET request) "bg")
      then views.generate_bg_delay
      else django.Secret_objects_create None;; mret ()
  | urls.views_delete =>
      django.QuerySet_delete django.Secret_objects_all;; mret ()
  end.

(** The [bg] query parameter is present with a non-empty value.  The value
    of a parameter is the one the handler reads with [GET.get]: for a
    parameter given more than once, the last. *)
Definition bg_requested (request : HttpRequest) : Prop :=
  ∃ v, django.QueryDict_get (GET request) "bg" = Some v ∧ v ≠ "".

(** ** Notions used for the further properties *)

(** What a step does to a well-formed store, with the added row spelled
    out: its key has 50 characters. *)
Inductive step_kind (w w' : World) : Prop :=
| step_keeps :
    secrets w' = secrets w → secret_id_seq w' = secret_id_seq w →
    step_kind w w'
| step_empties :
    secrets w' = ∅ → secret_id_seq w' = secret_id_seq w →
    step_kind w w'
| step_inserts (k : string) (t : Z) :
    String.length k = 50%nat →
    secrets w !! secret_id_seq w = None →
    secrets w'
    = <[secret_id_seq w := models.mkSecret (secret_id_seq w) t k]> (secrets w) →
    secret_id_seq w' = secret_id_seq w + 1 →
    step_kind w w'.

(** Every stored row prints, through [__str__], as 50 characters. *)
Definition keys_full (w : World) : Prop :=
  map_Forall (λ _ r, String.length (models.__str__ r) = 50%nat) (secrets w).

#[global] Instance keys_full_dec w : Decision (keys_full w).
Proof. unfold keys_full. apply _. Defined.

(** A store whose id sequence is used up: nothing stored, the next id
    past the end of the 32-bit range. *)
Definition exhausted : World :=
  set_secret_id_seq (django.AutoField_max + 1)
    (server.fresh 1000 samples.dice).

(** The sample world a moment later. *)
Definition later : World := server.step (server.Tick 1) samples.busy.

(** * Properties *)

(** ** Stepping through a sequence of calls *)

Section Stepping.
Context {A B : Type}.
Implicit Types (m : M A) (k : A → M B).

Lemma bind_Return m k w a w' :
  m w = (Return a, w') → (m ≫= k) w = k a w'.
Proof. intros H. unfold mbind, M_bind, bind. by rewrite H. Qed.

Lemma bind_Raise m k w e w' :
  m w = (Raise e, w') → (m ≫= k) w = (Raise e, w').
Proof. intros H. unfold mbind, M_bind, bind. by rewrite H. Qed.

Lemma exec_bind_Return m k w a w' :
  m w = (Return a, w') → exec (m ≫= k) w = exec (k a) w'.
Proof. intros H. unfold exec. by rewrite (bind_Return _ _ _ _ _ H). Qed.

Lemma outcome_bind_Return m k w a w' :
  m w = (Return a, w') → outcome (m ≫= k) w = outcome (k a) w'.
Proof. intros H. unfold outcome. by rewrite (bind_Return _ _ _ _ _ H). Qed.
End Stepping.

(** ** The key generator *)

Lemma string_get_in_range (s : string) (i : nat) :
  (i < String.length s)%nat → ∃ c, String.get i s = Some c.
Proof.
  revert i. induction s as [|a s IH]; intros i Hi; simpl in *; [lia|].
  destruct i as [|i]; [by eexists|]. apply IH. lia.
Qed.

Lemma set_drawn_twice a b w : set_drawn a (set_drawn b w) = set_drawn a w.
Proof. reflexivity. Qed.

Lemma random_choice_nonempty (seq : string) w :
  seq ≠ "" →
  ∃ c, python.random_choice seq w = (Return c, set_drawn (S (drawn w)) w).
Proof.
  intros Hne. unfold python.random_choice.
  destruct (string_get_in_range seq
              (entropy w (drawn w) `mod` String.length seq)%nat) as [c Hc].
  - apply Nat.mod_upper_bound. destruct seq; [done | simpl; lia].
  - exists c. by rewrite Hc.
Qed.

(** A random string over a non-empty alphabet has the requested length,
    and costs that many draws and nothing else. *)
Lemma get_random_string_spec (n : nat) (chars : string) w :
  chars ≠ "" →
  ∃ s, django.get_random_string n chars w
         = (Return s, set_drawn (drawn w + n) w)
       ∧ String.length s = n.
Proof.
  intros Hne. revert w. induction n as [|n IH]; intros w; simpl.
  - exists "". split; [|done].
    unfold mret, M_ret, ret. f_equal. destruct w; unfold set_drawn; simpl.
    f_equal. lia.
  - destruct (random_choice_nonempty chars w Hne) as [c Hc].
    destruct (IH (set_drawn (S (drawn w)) w)) as (s & Hs & Hlen).
    exists (String c s). split; [|simpl; congruence].
    rewrite (bind_Return _ _ _ _ _ Hc).
    rewrite (bind_Return _ _ _ _ _ Hs).
    unfold mret, M_ret, ret. f_equal. rewrite set_drawn_twice.
    simpl. f_equal. lia.
Qed.

Example secret_key_chars_length :
  String.length django.secret_key_chars = 50%nat.
Proof. reflexivity. Qed.

Lemma get_random_secret_key_spec w :
  ∃ k, django.get_random_secret_key w
         = (Return k, set_drawn (drawn w + 50) w)
       ∧ String.length k = 50%nat.
Proof. apply get_random_string_spec. done. Qed.

(** Every character of a random string comes from the alphabet. *)
Lemma string_get_contains (s : string) (i : nat) c :
  String.get i s = Some c → python.contains c s = true.
Proof.
  revert i. induction s as [|a s IH]; intros i; simpl; [done|].
  destruct i as [|i].
  - intros [= ->]. by rewrite Ascii.eqb_refl.
  - intros H. rewrite (IH i H). apply orb_true_r.
Qed.

Lemma random_choice_in (seq : string) w c w' :
  python.random_choice seq w = (Return c, w') → python.contains c seq = true.
Proof.
  unfold python.random_choice.
  destruct (String.get _ seq) as [c'|] eqn:E; [|done].
  intros [= <- _]. by eapply string_get_contains.
Qed.

Lemma get_random_string_alphabet (n : nat) (chars : string) w s w' c :
  django.get_random_string n chars w = (Return s, w') →
  python.contains c s = true → python.contains c chars = true.
Proof.
  revert w s w'. induction n as [|n IH]; intros w s w'; simpl.
  - by intros [= <- _].
  - unfold mbind, M_bind, bind.
    destruct (python.random_choice chars w) as [[c0|e] w1] eqn:E1; [|done].
    destruct (django.get_random_string n chars w1) as [[s0|e] w2] eqn:E2;
      [|done].
    intros [= <- _]. simpl. intros H. apply orb_true_iff in H as [H|H].
    + apply Ascii.eqb_eq in H as <-. by eapply random_choice_in.
    + by eapply IH.
Qed.

Lemma get_random_secret_key_no_nul w k w' :
  django.get_random_secret_key w = (Return k, w') →
  python.contains Ascii.zero k = false.
Proof.
  intros Hk. destruct (python.contains Ascii.zero k) eqn:E; [|done].
  apply (get_random_string_alphabet _ _ _ _ _ _ Hk) in E.
  vm_compute in E. done.
Qed.

(** ** The column *)

Lemma char_length_le (s : string) : (django.char_length s ≤ String.length s)%nat.
Proof.
  induction s as [|c s IH]; simpl; [lia|].
  destruct (django.is_continuation c); lia.
Qed.

Lemma varchar_fits (n : nat) (s : string) :
  (django.char_length s ≤ n)%nat → django.varchar n s = Some s.
Proof.
  intros H. unfold django.varchar.
  by rewrite (proj2 (Nat.leb_le _ _) H).
Qed.



(** ** The insert *)

Lemma wf_fresh w : wf w → secrets w !! secret_id_seq w = None.
Proof.
  intros Hwf. destruct (secrets w !! secret_id_seq w) as [r|] eqn:E; [|done].
  apply Hwf in E. lia.
Qed.

Lemma sql_insert_Raise t k w e w' :
  django.sql_insert t k w = (Raise e, w') →
  secrets w' = secrets w ∧ queue w' = queue w ∧ flashed w' = flashed w
  ∧ clock w' = clock w
  ∧ (secrets w !! secret_id_seq w = None → w' = w).
Proof.
  unfold django.sql_insert.
  destruct (db_up w); cbn [negb]; [|by intros [= <- <-]].
  destruct (python.contains _ k); [by intros [= <- <-]|].
  destruct (django.varchar _ k); [|by intros [= <- <-]].
  destruct (bool_decide _); [by intros [= <- <-]|].
  destruct (secrets w !! secret_id_seq w); [by intros [= <- <-]|done].
Qed.

Lemma sql_insert_Return t k w i w' :
  django.sql_insert t k w = (Return i, w') →
  db_up w = true
  ∧ secret_id_seq w ≤ django.AutoField_max
  ∧ secrets w !! secret_id_seq w = None
  ∧ i = secret_id_seq w
  ∧ ∃ stored,
      django.varchar models.key_max_length k = Some stored
      ∧ w' = set_secret_id_seq (secret_id_seq w + 1)
               (set_secrets
                  (<[secret_id_seq w :=
                       models.mkSecret (secret_id_seq w) t stored]>
                     (secrets w)) w).
Proof.
  unfold django.sql_insert.
  destruct (db_up w); cbn [negb]; [|done].
  destruct (python.contains _ k); [done|].
  destruct (django.varchar _ k) as [stored|]; [|done].
  destruct (bool_decide _) eqn:Hmax; [done|].
  destruct (secrets w !! secret_id_seq w) eqn:E; [done|].
  intros [= <- <-]. apply bool_decide_eq_false in Hmax.
  repeat split; try done; [lia|]. by exists stored.
Qed.

Lemma sql_insert_fits t k w :
  db_up w = true →
  python.contains Ascii.zero k = false →
  (django.char_length k ≤ models.key_max_length)%nat →
  secret_id_seq w ≤ django.AutoField_max →
  secrets w !! secret_id_seq w = None →
  django.sql_insert t k w
  = (Return (secret_id_seq w),
     set_secret_id_seq (secret_id_seq w + 1)
       (set_secrets
          (<[secret_id_seq w := models.mkSecret (secret_id_seq w) t k]>
             (secrets w)) w)).
Proof.
  intros Hdb Hnul Hlen Hmax Hfresh. unfold django.sql_insert.
  rewrite Hdb, Hnul, (varchar_fits _ _ Hlen). cbn [negb].
  rewrite bool_decide_eq_false_2 by lia. by rewrite Hfresh.
Qed.

(** How [Secret.objects.create()] runs up to the insert. *)
Lemma Secret_objects_create_unfold w :
  ∃ k, django.get_random_secret_key w
         = (Return k, set_drawn (drawn w + 50) w)
       ∧ String.length k = 50%nat
       ∧ python.contains Ascii.zero k = false
       ∧ django.Secret_objects_create None w
         = (i ← django.sql_insert (clock w) k;
            mret (models.mkSecret i (clock w) k))
             (set_drawn (drawn w + 50) w).
Proof.
  destruct (get_random_secret_key_spec w) as (k & Hk & Hlen).
  exists k. split; [done|]. split; [done|].
  split; [by eapply get_random_secret_key_no_nul|].
  unfold django.Secret_objects_create.
  rewrite (bind_Return _ _ _ _ _ Hk).
  by rewrite (bind_Return _ _ _ (clock w) (set_drawn (drawn w + 50) w))
    by reflexivity.
Qed.

Lemma Secret_objects_create_Raise w e w' :
  django.Secret_objects_create None w = (Raise e, w') →
  secrets w' = secrets w ∧ queue w' = queue w ∧ flashed w' = flashed w
  ∧ clock w' = clock w
  ∧ (secrets w !! secret_id_seq w = None →
     w' = set_drawn (drawn w + 50) w).
Proof.
  destruct (Secret_objects_create_unfold w) as (k & _ & _ & _ & ->).
  destruct (django.sql_insert (clock w) k (set_drawn (drawn w + 50) w))
    as [[i|e'] w2] eqn:E.
  - by rewrite (bind_Return _ _ _ _ _ E).
  - rewrite (bind_Raise _ _ _ _ _ E). intros [= <- <-].
    by apply sql_insert_Raise in E.
Qed.

Lemma Secret_objects_create_Return w row w' :
  django.Secret_objects_create None w = (Return row, w') →
  ∃ k, String.length k = 50%nat
       ∧ db_up w = true
       ∧ secrets w !! secret_id_seq w = None
       ∧ secret_id_seq w ≤ django.AutoField_max
       ∧ row = models.mkSecret (secret_id_seq w) (clock w) k
       ∧ w' = created_world k w.
Proof.
  destruct (Secret_objects_create_unfold w) as (k & _ & Hlen & _ & ->).
  destruct (django.sql_insert (clock w) k (set_drawn (drawn w + 50) w))
    as [[i|e'] w2] eqn:E.
  - rewrite (bind_Return _ _ _ _ _ E). intros [= <- <-].
    apply sql_insert_Return
      in E as (Hdb & Hmax & Hfresh & -> & stored & Hstored & ->).
    rewrite varchar_fits in Hstored
      by (pose proof (char_length_le k); unfold models.key_max_length; lia).
    injection Hstored as <-. exists k. done.
  - by rewrite (bind_Raise _ _ _ _ _ E).
Qed.

Lemma Secret_objects_create_spec w :
  db_up w = true →
  secrets w !! secret_id_seq w = None →
  secret_id_seq w ≤ django.AutoField_max →
  ∃ k, django.get_random_secret_key w
         = (Return k, set_drawn (drawn w + 50) w)
       ∧ String.length k = 50%nat
       ∧ django.Secret_objects_create None w
         = (Return (models.mkSecret (secret_id_seq w) (clock w) k),
            created_world k w).
Proof.
  intros Hdb Hfresh Hmax.
  destruct (Secret_objects_create_unfold w) as (k & Hk & Hlen & Hnul & ->).
  exists k. split; [done|]. split; [done|].
  rewrite (bind_Return _ _ _ (secret_id_seq w)
             (created_world k w)); [done|].
  apply sql_insert_fits; try done.
  pose proof (char_length_le k). unfold models.key_max_length. lia.
Qed.

Lemma Secret_objects_create_db_down w :
  db_up w = false →
  django.Secret_objects_create None w
    = (Raise OperationalError, set_drawn (drawn w + 50) w).
Proof.
  intros Hdb.
  destruct (Secret_objects_create_unfold w) as (k & _ & _ & _ & ->).
  apply bind_Raise. unfold django.sql_insert. simpl. by rewrite Hdb.
Qed.

(** Past the end of the id sequence the insert is refused. *)
Lemma Secret_objects_create_exhausted w :
  db_up w = true →
  django.AutoField_max < secret_id_seq w →
  django.Secret_objects_create None w
    = (Raise DataError, set_drawn (drawn w + 50) w).
Proof.
  intros Hdb Hmax.
  destruct (Secret_objects_create_unfold w) as (k & _ & Hlen & Hnul & ->).
  apply bind_Raise. unfold django.sql_insert. simpl. rewrite Hdb, Hnul.
  rewrite varchar_fits
    by (pose proof (char_length_le k); unfold models.key_max_length; lia).
  cbn [negb]. by rewrite bool_decide_eq_true_2 by done.
Qed.

Lemma redirect_home : urls.redirect "home" = mret (HttpResponseRedirect "/").
Proof. reflexivity. Qed.

(** The clock plays no part in generating a key. *)
Lemma get_random_string_set_clock (n : nat) (chars : string) t w :
  django.get_random_string n chars (set_clock t w)
  = (outcome (django.get_random_string n chars) w,
     set_clock t (exec (django.get_random_string n chars) w)).
Proof.
  revert w. induction n as [|n IH]; intros w; [reflexivity|].
  unfold outcome, exec in *. simpl.
  unfold mbind, M_bind, bind, python.random_choice in *. simpl.
  destruct (String.get _ chars) as [c|]; [|reflexivity].
  change (set_drawn (S (drawn w)) (set_clock t w))
    with (set_clock t (set_drawn (S (drawn w)) w)).
  rewrite IH.
  destruct (django.get_random_string n chars (set_drawn (S (drawn w)) w))
    as [[s|e] w']; reflexivity.
Qed.

Lemma get_random_secret_key_set_clock t w k w' k2 w2' :
  django.get_random_secret_key w = (Return k, w') →
  django.get_random_secret_key (set_clock t w) = (Return k2, w2') →
  k2 = k.
Proof.
  unfold django.get_random_secret_key. intros Hk Hk2.
  rewrite get_random_string_set_clock in Hk2.
  unfold outcome in Hk2. rewrite Hk in Hk2. simpl in Hk2. congruence.
Qed.

(** ** What each path through the handlers does, as one equation *)

Lemma generate_sync_Return (request : HttpRequest) w row w' :
  python.truthy (django.QueryDict_get (GET request) "bg") = false →
  django.Secret_objects_create None w = (Return row, w') →
  views.generate request w
  = (Return (HttpResponseRedirect "/"), flash notice_sync w').
Proof.
  intros Hbg E. unfold views.generate. rewrite Hbg.
  unfold mbind at 1 2, M_bind, bind. rewrite E. reflexivity.
Qed.

Lemma generate_sync_Raise (request : HttpRequest) w e w' :
  python.truthy (django.QueryDict_get (GET request) "bg") = false →
  django.Secret_objects_create None w = (Raise e, w') →
  views.generate request w = (Raise e, w').
Proof.
  intros Hbg E. unfold views.generate. rewrite Hbg.
  unfold mbind at 1 2, M_bind, bind. rewrite E. reflexivity.
Qed.

Lemma generate_bg_Return w row w' :
  django.Secret_objects_create None (set_clock (clock w + 2000000) w)
  = (Return row, w') →
  views.generate_bg w = (Return (), w').
Proof.
  intros E. unfold views.generate_bg.
  rewrite (bind_Return _ _ w () (set_clock (clock w + 2000000) w))
    by reflexivity.
  rewrite (bind_Return _ _ _ _ _ E). reflexivity.
Qed.

Lemma generate_bg_Raise w e w' :
  django.Secret_objects_create None (set_clock (clock w + 2000000) w)
  = (Raise e, w') →
  views.generate_bg w = (Raise e, w').
Proof.
  intros E. unfold views.generate_bg.
  rewrite (bind_Return _ _ w () (set_clock (clock w + 2000000) w))
    by reflexivity.
  by rewrite (bind_Raise _ _ _ _ _ E).
Qed.

Lemma generate_sync_spec (request : HttpRequest) w :
  db_up w = true →
  secrets w !! secret_id_seq w = None →
  secret_id_seq w ≤ django.AutoField_max →
  python.truthy (django.QueryDict_get (GET request) "bg") = false →
  ∃ k, django.get_random_secret_key w
         = (Return k, set_drawn (drawn w + 50) w)
       ∧ String.length k = 50%nat
       ∧ views.generate request w
         = (Return (HttpResponseRedirect "/"),
            flash notice_sync (created_world k w)).
Proof.
  intros Hdb Hfresh Hmax Hbg.
  destruct (Secret_objects_create_spec w Hdb Hfresh Hmax)
    as (k & Hk & Hlen & Hc).
  exists k. split; [done|]. split; [done|].
  by apply (generate_sync_Return request w _ _ Hbg Hc).
Qed.

Lemma generate_bg_spec w :
  db_up w = true →
  secrets w !! secret_id_seq w = None →
  secret_id_seq w ≤ django.AutoField_max →
  ∃ k, django.get_random_secret_key w
         = (Return k, set_drawn (drawn w + 50) w)
       ∧ String.length k = 50%nat
       ∧ views.generate_bg w
         = (Return (), created_world k (set_clock (clock w + 2000000) w)).
Proof.
  intros Hdb Hfresh Hmax.
  destruct (get_random_secret_key_spec w) as (k & Hk & Hlen).
  exists k. split; [done|]. split; [done|].
  set (w2 := set_clock (clock w + 2000000) w).
  destruct (Secret_objects_create_spec w2 Hdb Hfresh Hmax)
    as (k2 & Hk2 & _ & Hc).
  assert (k2 = k) as ->
    by exact (get_random_secret_key_set_clock _ _ _ _ _ _ Hk Hk2).
  by apply (generate_bg_Return w _ _ Hc).
Qed.

Lemma generate_enqueue_spec (request : HttpRequest) w :
  queue_up w = true →
  python.truthy (django.QueryDict_get (GET request) "bg") = true →
  views.generate request w
  = (Return (HttpResponseRedirect "/"),
     flash notice_bg (set_queue (queue w ++ [Job_generate_bg]) w)).
Proof.
  intros Hq Hbg. unfold views.generate. rewrite Hbg.
  unfold mbind, M_bind, bind, views.generate_bg_delay, django_rq.delay.
  rewrite Hq. reflexivity.
Qed.

Lemma generate_enqueue_queue_down (request : HttpRequest) w :
  queue_up w = false →
  python.truthy (django.QueryDict_get (GET request) "bg") = true →
  views.generate request w = (Raise ConnectionError, w).
Proof.
  intros Hq Hbg. unfold views.generate. rewrite Hbg.
  unfold mbind, M_bind, bind, views.generate_bg_delay, django_rq.delay.
  rewrite Hq. reflexivity.
Qed.

Lemma delete_spec (request : HttpRequest) w :
  db_up w = true →
  views.delete request w
  = (Return (HttpResponseRedirect "/"), flash notice_delete (set_secrets ∅ w)).
Proof.
  intros Hdb. unfold views.delete.
  unfold mbind, M_bind, bind, django.QuerySet_delete.
  rewrite Hdb. reflexivity.
Qed.

Lemma delete_db_down (request : HttpRequest) w :
  db_up w = false →
  views.delete request w = (Raise OperationalError, w).
Proof.
  intros Hdb. unfold views.delete.
  unfold mbind, M_bind, bind, django.QuerySet_delete.
  rewrite Hdb. reflexivity.
Qed.

Lemma index_spec (request : HttpRequest) w :
  db_up w = true →
  views.index request w
  = (Return (TemplateResponse "keygen/index.html"
       [("secrets",
         merge_sort models.ordering (map_to_list (secrets w)).*2)]), w).
Proof.
  intros Hdb. unfold views.index, django.render. simpl.
  unfold mbind, M_bind, bind, django.QuerySet_iter.
  rewrite Hdb. reflexivity.
Qed.

Lemma index_db_down (request : HttpRequest) w :
  db_up w = false →
  views.index request w = (Raise OperationalError, w).
Proof.
  intros Hdb. unfold views.index, django.render. simpl.
  unfold mbind, M_bind, bind, django.QuerySet_iter.
  rewrite Hdb. reflexivity.
Qed.

Lemma busy_wf : wf samples.busy.
Proof. refine (bool_decide_unpack (wf samples.busy) _). vm_compute. exact I. Defined.

Lemma busy_ids_left : secret_id_seq samples.busy ≤ django.AutoField_max.
Proof. vm_compute. discriminate. Defined.

(** ** Creating a key *)

(** C1. From every well-formed store with the database reachable and
    the id sequence not used up, the generate handler called without a
    true [bg] parameter stores exactly one new row: the count goes up by
    one, every earlier row is kept, and the new row's key is a non-empty
    string of at most 50 characters.  The handler then redirects to the
    list view with its notice. *)
Theorem generate_sync_inserts_one (request : HttpRequest) (w : World) :
  wf w →
  db_up w = true →
  secret_id_seq w ≤ django.AutoField_max →
  python.truthy (django.QueryDict_get (GET request) "bg") = false →
  size (secrets (exec (views.generate request) w)) = S (size (secrets w))
  ∧ (∃ row,
        secrets w !! models.id row = None
        ∧ secrets (exec (views.generate request) w)
          = <[models.id row := row]> (secrets w)
        ∧ models.key row ≠ ""
        ∧ (String.length (models.key row) ≤ 50)%nat)
  ∧ outcome (views.generate request) w = Return (HttpResponseRedirect "/")
  ∧ flashed (exec (views.generate request) w)
    = (flashed w ++ [(SUCCESS, "Generated new key.")])%list.
Proof.
  intros Hwf Hdb Hmax Hbg. pose proof (wf_fresh w Hwf) as Hfresh.
  destruct (generate_sync_spec request w Hdb Hfresh Hmax Hbg)
    as (k & _ & Hlen & E).
  unfold exec, outcome. rewrite E. simpl.
  split; [by apply map_size_insert_None|].
  split; [|done].
  exists (models.mkSecret (secret_id_seq w) (clock w) k). simpl.
  repeat split; [done| |lia].
  intros ->. simpl in Hlen. lia.
Qed.

Lemma generate_sync_inserts_one_witness :
  size (secrets (exec (views.generate samples.sync_request) samples.busy)) = 4%nat.
Proof.
  destruct (generate_sync_inserts_one samples.sync_request samples.busy)
    as [H _];
    [exact busy_wf | vm_compute; reflexivity | exact busy_ids_left
     | vm_compute; reflexivity |].
  rewrite H. vm_compute. reflexivity.
Defined.

(** C2. From every well-formed store with the database reachable and
    the id sequence not used up, the job [generate_bg] and the
    synchronous path of [generate] do the same thing to the store: each adds one row under the next id, holding the
    freshly generated default key, and keeps every other row.  The row is
    stamped with the time of its insertion, which for the job is after its
    two-second sleep: the job leaves the table exactly as the synchronous
    path does when it runs at that later time. *)
Theorem generate_bg_same_effect (request : HttpRequest) (w : World) :
  wf w →
  db_up w = true →
  secret_id_seq w ≤ django.AutoField_max →
  python.truthy (django.QueryDict_get (GET request) "bg") = false →
  ∃ k,
    outcome django.get_random_secret_key w = Return k
    ∧ secrets w !! secret_id_seq w = None
    ∧ secrets (exec views.generate_bg w)
      = <[secret_id_seq w :=
            models.mkSecret (secret_id_seq w) (clock w + 2000000) k]>
          (secrets w)
    ∧ secrets (exec (views.generate request) w)
      = <[secret_id_seq w := models.mkSecret (secret_id_seq w) (clock w) k]>
          (secrets w)
    ∧ size (secrets (exec views.generate_bg w)) = S (size (secrets w))
    ∧ size (secrets (exec (views.generate request) w)) = S (size (secrets w))
    ∧ secret_id_seq (exec views.generate_bg w)
      = secret_id_seq (exec (views.generate request) w)
    ∧ secrets (exec views.generate_bg w)
      = secrets (exec (views.generate request) (exec (python.time_sleep 2) w)).
Proof.
  intros Hwf Hdb Hmax Hbg. pose proof (wf_fresh w Hwf) as Hfresh.
  destruct (generate_sync_spec request w Hdb Hfresh Hmax Hbg)
    as (k & Hk & _ & Es).
  destruct (generate_bg_spec w Hdb Hfresh Hmax) as (k' & Hk' & _ & Eb).
  assert (k' = k) as -> by congruence.
  set (w2 := exec (python.time_sleep 2) w).
  destruct (generate_sync_spec request w2 Hdb Hfresh Hmax Hbg)
    as (k2 & Hk2 & _ & E2).
  assert (k2 = k) as ->
    by exact (get_random_secret_key_set_clock (clock w + 2 * 1000000)
                _ _ _ _ _ Hk Hk2).
  exists k. unfold exec, outcome in *. rewrite Hk, Es, Eb, E2. simpl.
  repeat split; try done; by apply map_size_insert_None.
Qed.

Lemma generate_bg_same_effect_witness :
  secrets (exec views.generate_bg samples.busy)
  = secrets (exec (views.generate samples.sync_request)
               (exec (python.time_sleep 2) samples.busy)).
Proof.
  destruct (generate_bg_same_effect samples.sync_request samples.busy)
    as (k & _ & _ & _ & _ & _ & _ & _ & H);
    [exact busy_wf | vm_compute; reflexivity | exact busy_ids_left
     | vm_compute; reflexivity | exact H].
Defined.

(** C9. The default key is exactly 50 characters long; and on both
    create paths, from a well-formed store with the database reachable
    and the id sequence not used up, the row stored under the new id
    carries that generated key unchanged, so its length equals the field
    limit. *)
Theorem default_key_length_50 (request : HttpRequest) (w : World) :
  wf w →
  db_up w = true →
  secret_id_seq w ≤ django.AutoField_max →
  python.truthy (django.QueryDict_get (GET request) "bg") = false →
  ∃ k,
    outcome django.get_random_secret_key w = Return k
    ∧ String.length k = 50%nat
    ∧ String.length k = models.key_max_length
    ∧ (∃ row, secrets (exec (views.generate request) w) !! secret_id_seq w
              = Some row ∧ models.key row = k)
    ∧ (∃ row, secrets (exec views.generate_bg w) !! secret_id_seq w
              = Some row ∧ models.key row = k).
Proof.
  intros Hwf Hdb Hmax Hbg. pose proof (wf_fresh w Hwf) as Hfresh.
  destruct (generate_sync_spec request w Hdb Hfresh Hmax Hbg)
    as (k & Hk & Hlen & Es).
  destruct (generate_bg_spec w Hdb Hfresh Hmax) as (k' & Hk' & _ & Eb).
  assert (k' = k) as -> by congruence.
  exists k. unfold exec, outcome. rewrite Hk, Es, Eb. simpl.
  repeat split; try done; eexists; (split; [apply lookup_insert_eq | done]).
Qed.

Lemma default_key_length_50_witness :
  ∃ k, outcome django.get_random_secret_key samples.busy = Return k
       ∧ String.length k = 50%nat.
Proof.
  destruct (default_key_length_50 samples.sync_request samples.busy)
    as (k & Hk & Hlen & _);
    [exact busy_wf | vm_compute; reflexivity | exact busy_ids_left
     | vm_compute; reflexivity |].
  exists k. split; [exact Hk | exact Hlen].
Defined.

(** Once the id sequence is used up, both create paths raise DataError
    and store nothing. *)
Example create_when_exhausted :
  wf exhausted
  ∧ outcome (views.generate samples.sync_request) exhausted = Raise DataError
  ∧ secrets (exec (views.generate samples.sync_request) exhausted)
    = secrets exhausted
  ∧ flashed (exec (views.generate samples.sync_request) exhausted)
    = flashed exhausted
  ∧ outcome views.generate_bg exhausted = Raise DataError
  ∧ secrets (exec views.generate_bg exhausted) = secrets exhausted.
Proof.
  split; [apply map_Forall_empty|].
  repeat (split; [vm_compute; reflexivity|]). vm_compute. reflexivity.
Qed.

(** The last id of the sequence can still be handed out. *)
Example create_with_last_id :
  models.id <$>
    secrets (exec (views.generate samples.sync_request)
               (set_secret_id_seq django.AutoField_max exhausted))
      !! 2147483647
  = Some 2147483647.
Proof. vm_compute. reflexivity. Qed.

(** ** Deleting *)

(** C3. From every store, empty or not, with the database reachable, the
    delete handler leaves no row at all, then adds its notice and
    redirects to the list view. *)
Theorem delete_removes_all (request : HttpRequest) (w : World) :
  db_up w = true →
  secrets (exec (views.delete request) w) = ∅
  ∧ size (secrets (exec (views.delete request) w)) = 0%nat
  ∧ (∀ i, secrets (exec (views.delete request) w) !! i = None)
  ∧ outcome (views.delete request) w = Return (HttpResponseRedirect "/")
  ∧ flashed (exec (views.delete request) w)
    = (flashed w ++ [(SUCCESS, "Deleted all keys.")])%list.
Proof.
  intros Hdb. unfold exec, outcome. rewrite (delete_spec request w Hdb). simpl.
  repeat split; done.
Qed.

Lemma delete_removes_all_witness :
  size (secrets samples.busy) = 3%nat
  ∧ secrets (exec (views.delete samples.delete_request) samples.busy) = ∅.
Proof.
  split; [vm_compute; reflexivity|].
  destruct (delete_removes_all samples.delete_request samples.busy) as [H _];
    [vm_compute; reflexivity | exact H].
Defined.

(** C10. With the database reachable, deleting twice leaves the same
    store as deleting once, namely the empty one with the id sequence
    where it was, and the second call, which meets an empty store,
    returns its redirect like the first. *)
Theorem delete_idempotent (request : HttpRequest) (w : World) :
  db_up w = true →
  secrets (exec (views.delete request) (exec (views.delete request) w))
  = secrets (exec (views.delete request) w)
  ∧ secret_id_seq (exec (views.delete request) (exec (views.delete request) w))
    = secret_id_seq (exec (views.delete request) w)
  ∧ secrets (exec (views.delete request) w) = ∅
  ∧ outcome (views.delete request) (exec (views.delete request) w)
    = Return (HttpResponseRedirect "/")
  ∧ (secrets w = ∅ →
     outcome (views.delete request) w = Return (HttpResponseRedirect "/")
     ∧ secrets (exec (views.delete request) w) = secrets w).
Proof.
  intros Hdb. unfold exec, outcome.
  rewrite (delete_spec request w Hdb). simpl.
  rewrite delete_spec by done. simpl.
  repeat split; done.
Qed.

Lemma delete_idempotent_witness :
  secrets (exec (views.delete samples.delete_request)
             (exec (views.delete samples.delete_request) samples.busy))
  = secrets (exec (views.delete samples.delete_request) samples.busy).
Proof.
  destruct (delete_idempotent samples.delete_request samples.busy) as [H _];
    [vm_compute; reflexivity | exact H].
Defined.

(** ** Listing *)

Lemma StronglySorted_lookup_le {A} (R : relation A) (l : list A) i j a b :
  StronglySorted R l → (i < j)%nat →
  l !! i = Some a → l !! j = Some b → R a b.
Proof.
  intros Hs. revert i j. induction Hs as [|x l Hs IH Hall]; intros i j Hij Ha Hb.
  - by rewrite lookup_nil in Ha.
  - destruct j as [|j]; [lia|]. simpl in Hb. destruct i as [|i]; simpl in Ha.
    + injection Ha as ->. rewrite Forall_forall in Hall. apply Hall.
      by eapply list_elem_of_lookup_2.
    + apply (IH i j); [lia|done|done].
Qed.

(** C4. With the database reachable, the list view hands its template
    every stored row, each exactly once and nothing else, newest first:
    a row is never listed before one created later.  It changes nothing,
    and on an empty store it lists nothing and still returns its page. *)
Theorem index_lists_all_newest_first (request : HttpRequest) (w : World) :
  db_up w = true →
  ∃ rows,
    outcome (views.index request) w
    = Return (TemplateResponse "keygen/index.html" [("secrets", rows)])
    ∧ exec (views.index request) w = w
    ∧ rows ≡ₚ (map_to_list (secrets w)).*2
    ∧ (∀ r, r ∈ rows ↔ ∃ i, secrets w !! i = Some r)
    ∧ length rows = size (secrets w)
    ∧ (∀ i j a b, (i < j)%nat → rows !! i = Some a → rows !! j = Some b →
                  models.created b ≤ models.created a)
    ∧ (secrets w = ∅ → rows = []).
Proof.
  intros Hdb.
  exists (merge_sort models.ordering (map_to_list (secrets w)).*2).
  unfold exec, outcome. rewrite (index_spec request w Hdb). simpl.
  pose proof (merge_sort_Permutation models.ordering
                (map_to_list (secrets w)).*2) as Hperm.
  repeat split; try done.
  - rewrite Hperm. intros Hin. apply list_elem_of_fmap in Hin as [[i r'] [-> Hin]].
    exists i. by apply elem_of_map_to_list.
  - intros [i Hi]. rewrite Hperm. apply list_elem_of_fmap.
    exists (i, r). split; [done|]. by apply elem_of_map_to_list.
  - rewrite Hperm, length_fmap. apply length_map_to_list.
  - intros i j a b Hij Ha Hb.
    change (models.ordering a b).
    eapply StronglySorted_lookup_le; [|exact Hij|exact Ha|exact Hb].
    apply StronglySorted_merge_sort; apply _.
  - intros ->. by rewrite map_to_list_empty.
Qed.

Lemma index_lists_all_newest_first_witness :
  ∃ rows,
    outcome (views.index samples.index_request) samples.busy
    = Return (TemplateResponse "keygen/index.html" [("secrets", rows)])
    ∧ length rows = 3%nat.
Proof.
  destruct (index_lists_all_newest_first samples.index_request samples.busy)
    as (rows & Hout & _ & _ & _ & Hlen & _); [vm_compute; reflexivity|].
  exists rows. split; [exact Hout|]. rewrite Hlen. vm_compute. reflexivity.
Defined.

Example index_busy :
  ∃ rows,
    outcome (views.index samples.index_request) samples.busy
    = Return (TemplateResponse "keygen/index.html" [("secrets", rows)])
    ∧ (λ r, (models.id r, models.created r)) <$> rows
      = [(3, 2001005); (2, 1005); (1, 1000)].
Proof. eexists. split; vm_compute; reflexivity. Qed.

Example index_empty :
  outcome (views.index samples.index_request) (server.fresh 0 samples.dice)
  = Return (TemplateResponse "keygen/index.html" [("secrets", [])]).
Proof. vm_compute. reflexivity. Qed.

(** ** Rows never change *)

Lemma generate_sync_db_down (request : HttpRequest) w :
  db_up w = false →
  python.truthy (django.QueryDict_get (GET request) "bg") = false →
  views.generate request w
  = (Raise OperationalError, set_drawn (drawn w + 50) w).
Proof.
  intros Hdb Hbg. unfold views.generate. rewrite Hbg.
  unfold mbind at 1 2, M_bind, bind.
  by rewrite (Secret_objects_create_db_down w Hdb).
Qed.

Lemma generate_bg_db_down w :
  db_up w = false →
  views.generate_bg w
  = (Raise OperationalError,
     set_drawn (drawn w + 50) (set_clock (clock w + 2000000) w)).
Proof.
  intros Hdb. unfold views.generate_bg.
  rewrite (bind_Return _ _ w () (set_clock (clock w + 2000000) w))
    by reflexivity.
  by rewrite (bind_Raise _ _ _ _ _
                (Secret_objects_create_db_down
                   (set_clock (clock w + 2000000) w) Hdb)).
Qed.

Lemma callback_store_change c (request : HttpRequest) w :
  wf w → store_change w (exec (server.callback c request) w).
Proof.
  intros Hwf. pose proof (wf_fresh w Hwf) as Hfresh. unfold exec.
  destruct c; simpl.
  - destruct (db_up w) eqn:Hdb.
    + rewrite index_spec by done. by apply store_kept.
    + rewrite index_db_down by done. by apply store_kept.
  - destruct (python.truthy (django.QueryDict_get (GET request) "bg")) eqn:Hbg.
    + destruct (queue_up w) eqn:Hq.
      * rewrite generate_enqueue_spec by done. by apply store_kept.
      * rewrite generate_enqueue_queue_down by done. by apply store_kept.
    + destruct (django.Secret_objects_create None w) as [[row|e] w'] eqn:E.
      * rewrite (generate_sync_Return request w row w' Hbg E).
        apply Secret_objects_create_Return in E as (k & _ & _ & _ & _ & _ & ->).
        by apply (store_inserted _ _
                    (models.mkSecret (secret_id_seq w) (clock w) k)).
      * rewrite (generate_sync_Raise request w e w' Hbg E).
        apply Secret_objects_create_Raise in E as (_ & _ & _ & _ & ->);
          [|done].
        by apply store_kept.
  - destruct (db_up w) eqn:Hdb.
    + rewrite delete_spec by done. by apply store_emptied.
    + rewrite delete_db_down by done. by apply store_kept.
Qed.

Lemma work_store_change w : wf w → store_change w (exec server.work w).
Proof.
  intros Hwf. pose proof (wf_fresh w Hwf) as Hfresh.
  unfold exec, server.work.
  destruct (queue_up w); simpl; [|by apply store_kept].
  destruct (queue w) as [|[] q]; simpl; [by apply store_kept|].
  destruct (django.Secret_objects_create None
              (set_clock (clock w + 2000000) (set_queue q w)))
    as [[row|e] w'] eqn:E.
  - rewrite (generate_bg_Return (set_queue q w) row w' E).
    apply Secret_objects_create_Return in E as (k & _ & _ & _ & _ & _ & ->).
    by apply (store_inserted _ _
                (models.mkSecret (secret_id_seq w) (clock w + 2000000) k)).
  - rewrite (generate_bg_Raise (set_queue q w) e w' E).
    apply Secret_objects_create_Raise in E as (_ & _ & _ & _ & ->); [|done].
    by apply store_kept.
Qed.

Lemma step_store_change e w : wf w → store_change w (server.step e w).
Proof.
  intros Hwf. destruct e as [request| |micros|d q]; simpl.
  - unfold server.get_response.
    destruct (urls.resolve (path_info request)) as [c|].
    + by apply callback_store_change.
    + by apply store_kept.
  - by apply work_store_change.
  - by apply store_kept.
  - by apply store_kept.
Qed.

(** Each kind of change keeps the store well formed, keeps the sequence
    from going back, and leaves every id handed out so far either with
    the row it had or with none. *)
Lemma store_change_wf w w' : wf w → store_change w w' → wf w'.
Proof.
  unfold wf. intros Hwf [Hs Hn|Hs Hn|row Hfresh Hid Hs Hn]; rewrite Hs, Hn.
  - done.
  - apply map_Forall_empty.
  - apply map_Forall_insert_2; [split; [done|lia]|].
    eapply map_Forall_impl; [exact Hwf|]. simpl. intros i r [? ?]. split; [done|lia].
Qed.

Lemma store_change_seq w w' :
  store_change w w' → secret_id_seq w ≤ secret_id_seq w'.
Proof. intros [Hs Hn|Hs Hn|row Hfresh Hid Hs Hn]; lia. Qed.

Lemma store_change_old_rows w w' i :
  store_change w w' → i < secret_id_seq w →
  secrets w' !! i = secrets w !! i ∨ secrets w' !! i = None.
Proof.
  intros [Hs Hn|Hs Hn|row Hfresh Hid Hs Hn] Hi; rewrite Hs.
  - by left.
  - right. apply lookup_empty.
  - left. apply lookup_insert_ne. lia.
Qed.

Lemma run_wf es w : wf w → wf (server.run es w).
Proof.
  revert w. induction es as [|e es IH]; intros w Hwf; simpl; [done|].
  apply IH. eapply store_change_wf; [done|]. by apply step_store_change.
Qed.

Lemma run_old_rows es w i :
  wf w → i < secret_id_seq w →
  secrets (server.run es w) !! i = secrets w !! i
  ∨ secrets (server.run es w) !! i = None.
Proof.
  revert w. induction es as [|e es IH]; intros w Hwf Hi; simpl; [by left|].
  pose proof (step_store_change e w Hwf) as Hstep.
  destruct (IH (server.step e w)) as [E|E].
  - eapply store_change_wf; done.
  - pose proof (store_change_seq _ _ Hstep). lia.
  - rewrite E. by apply store_change_old_rows.
  - by right.
Qed.

(** C5. Along every sequence of events (requests to any route, runs of
    the worker, time passing, the database or the queue going away and
    coming back) from a well-formed store, a row that is stored stays as
    it is, field for field, for as long as its id is in the table: later
    the table holds under that id either the very same row or nothing.
    Every single step either leaves the table alone, empties it, or adds
    one row under a new id. *)
Theorem secret_rows_immutable (es : list server.Event) (w : World)
        (i : Z) (row : models.Secret) :
  wf w →
  secrets w !! i = Some row →
  (secrets (server.run es w) !! i = Some row
   ∨ secrets (server.run es w) !! i = None)
  ∧ (∀ row', secrets (server.run es w) !! i = Some row' →
             models.id row' = models.id row
             ∧ models.created row' = models.created row
             ∧ models.key row' = models.key row)
  ∧ (∀ e, store_change (server.run es w) (server.step e (server.run es w))).
Proof.
  intros Hwf Hrow.
  assert (i < secret_id_seq w) as Hi by (apply Hwf in Hrow; lia).
  pose proof (run_old_rows es w i Hwf Hi) as Hold. rewrite Hrow in Hold.
  split; [done|]. split.
  - intros row' Hrow'. destruct Hold as [E|E]; rewrite E in Hrow'; [|done].
    by injection Hrow' as ->.
  - intros e. apply step_store_change. by apply run_wf.
Qed.

Lemma secret_rows_immutable_witness :
  ∃ row,
    secrets samples.busy !! 2 = Some row
    ∧ (secrets (server.run [server.Request samples.sync_request;
                            server.Request samples.delete_request;
                            server.Request samples.sync_request]
                  samples.busy) !! 2 = Some row
       ∨ secrets (server.run [server.Request samples.sync_request;
                              server.Request samples.delete_request;
                              server.Request samples.sync_request]
                    samples.busy) !! 2 = None).
Proof.
  assert (is_Some (secrets samples.busy !! 2)) as [row E].
  { vm_compute. eexists. reflexivity. }
  exists row. split; [exact E|].
  apply (secret_rows_immutable _ samples.busy 2 row busy_wf E).
Defined.

Example rows_survive_other_requests :
  secrets (server.run [server.Request samples.sync_request;
                       server.Request samples.bg_request;
                       server.Work;
                       server.Request samples.index_request]
             samples.busy) !! 2
  = secrets samples.busy !! 2.
Proof. vm_compute. reflexivity. Qed.

Example rows_gone_after_delete :
  secrets (server.run [server.Request samples.sync_request;
                       server.Request samples.delete_request;
                       server.Request samples.sync_request]
             samples.busy) !! 2
  = None.
Proof. vm_compute. reflexivity. Qed.

(** ** The background branch of the handler *)

(** C6. Called with a true [bg] parameter, the generate handler leaves
    the table and the id sequence as they were, whatever the state of the
    database and of the queue.  With the queue reachable its whole effect
    is one job appended to the queue and one notice, and it answers with
    the redirect; the row appears only when the job is run, which then,
    with the database reachable and the id sequence not used up, adds
    exactly one. *)
Theorem generate_bg_mode_leaves_store (request : HttpRequest) (w : World) :
  python.truthy (django.QueryDict_get (GET request) "bg") = true →
  secrets (exec (views.generate request) w) = secrets w
  ∧ secret_id_seq (exec (views.generate request) w) = secret_id_seq w
  ∧ (queue_up w = true →
     exec (views.generate request) w
     = set_flashed
         (flashed w ++
          [(SUCCESS,
            "Generating new key in background. Refresh page after two seconds to see generated key.")])
         (set_queue (queue w ++ [Job_generate_bg]) w)
     ∧ outcome (views.generate request) w
       = Return (HttpResponseRedirect "/"))
  ∧ (queue_up w = true → wf w → db_up w = true →
     secret_id_seq w ≤ django.AutoField_max →
     size (secrets (exec (server.perform Job_generate_bg)
                      (exec (views.generate request) w)))
     = S (size (secrets w))).
Proof.
  intros Hbg. unfold exec, outcome.
  destruct (queue_up w) eqn:Hq.
  - rewrite (generate_enqueue_spec request w Hq Hbg). simpl.
    repeat split; try done.
    intros _ Hwf Hdb Hmax. pose proof (wf_fresh w Hwf) as Hfresh.
    destruct (generate_bg_spec
                (flash notice_bg (set_queue (queue w ++ [Job_generate_bg]) w))
                Hdb Hfresh Hmax) as (k & _ & _ & ->).
    simpl. by apply map_size_insert_None.
  - rewrite (generate_enqueue_queue_down request w Hq Hbg). simpl.
    repeat split; done.
Qed.

Lemma generate_bg_mode_leaves_store_witness :
  secrets (exec (views.generate samples.bg_request) samples.busy)
  = secrets samples.busy
  ∧ queue (exec (views.generate samples.bg_request) samples.busy)
    = [Job_generate_bg]
  ∧ size (secrets (exec (server.perform Job_generate_bg)
                     (exec (views.generate samples.bg_request) samples.busy)))
    = 4%nat.
Proof.
  destruct (generate_bg_mode_leaves_store samples.bg_request samples.busy)
    as (Hs & _ & Hq & Hjob); [vm_compute; reflexivity|].
  split; [exact Hs|]. split.
  - destruct Hq as [-> _]; vm_compute; reflexivity.
  - rewrite Hjob; [vm_compute; reflexivity | vm_compute; reflexivity
                   | exact busy_wf | vm_compute; reflexivity
                   | exact busy_ids_left].
Defined.

(** ** Failures *)

Lemma Secret_objects_create_flashed w :
  flashed (exec (django.Secret_objects_create None) w) = flashed w.
Proof.
  unfold exec.
  destruct (django.Secret_objects_create None w) as [[row|e] w'] eqn:E.
  - by apply Secret_objects_create_Return in E as (k & _ & _ & _ & _ & _ & ->).
  - simpl. by apply Secret_objects_create_Raise in E as (_ & _ & ? & _).
Qed.

Lemma underlying_raises {A} (m : M A) w e :
  outcome (m;; mret ()) w = Raise e →
  m w = (Raise e, exec m w) ∧ exec (m;; mret ()) w = exec m w.
Proof.
  unfold outcome, exec, mbind, M_bind, bind.
  destruct (m w) as [[a|e'] w']; simpl; [done|]. intros [= ->]. done.
Qed.

(** C7. Whatever a handler's database or queue call raises, the handler
    raises the same: it stops there, leaving the world as the failed call
    left it, so it adds no notice and returns no redirect. *)
Theorem handlers_propagate (c : urls.Callback) (request : HttpRequest)
        (w : World) (e : Exception) :
  outcome (underlying_call c request) w = Raise e →
  outcome (server.callback c request) w = Raise e
  ∧ exec (server.callback c request) w = exec (underlying_call c request) w
  ∧ flashed (exec (server.callback c request) w) = flashed w
  ∧ (∀ response, outcome (server.callback c request) w ≠ Return response).
Proof.
  intros Hraise.
  assert (server.callback c request w
          = (Raise e, exec (underlying_call c request) w)
          ∧ flashed (exec (underlying_call c request) w) = flashed w)
    as (E & Hf).
  { destruct c; simpl in *.
    - apply underlying_raises in Hraise as [Hm Hx]. rewrite Hx. split.
      + unfold views.index, django.render. simpl.
        apply bind_Raise. by apply bind_Raise.
      + unfold exec, django.QuerySet_iter. by destruct (db_up w).
    - unfold views.generate.
      destruct (python.truthy (django.QueryDict_get (GET request) "bg")).
      + split.
        * apply bind_Raise. apply bind_Raise.
          unfold outcome, exec in *.
          destruct (views.generate_bg_delay w) as [o w']. simpl in *.
          by subst.
        * unfold exec, views.generate_bg_delay, django_rq.delay.
          by destruct (queue_up w).
      + apply underlying_raises in Hraise as [Hm Hx]. rewrite Hx. split.
        * apply bind_Raise. by apply bind_Raise.
        * apply Secret_objects_create_flashed.
    - apply underlying_raises in Hraise as [Hm Hx]. rewrite Hx. split.
      + unfold views.delete. by apply bind_Raise.
      + unfold exec, django.QuerySet_delete. by destruct (db_up w). }
  unfold outcome, exec in *. rewrite E. simpl. repeat split; done.
Qed.

Lemma handlers_propagate_witness :
  outcome (views.delete samples.delete_request) samples.db_down
  = Raise OperationalError
  ∧ flashed (exec (views.delete samples.delete_request) samples.db_down)
    = flashed samples.db_down.
Proof.
  destruct (handlers_propagate urls.views_delete samples.delete_request
              samples.db_down OperationalError)
    as (Ho & _ & Hf & _); [vm_compute; reflexivity|].
  split; [exact Ho | exact Hf].
Defined.

Example generate_sync_db_down_raises :
  outcome (views.generate samples.sync_request) samples.db_down
  = Raise OperationalError
  ∧ secrets (exec (views.generate samples.sync_request) samples.db_down)
    = secrets samples.db_down
  ∧ flashed (exec (views.generate samples.sync_request) samples.db_down)
    = flashed samples.db_down.
Proof. split; [|split]; vm_compute; reflexivity. Qed.

Example generate_bg_queue_down_raises :
  views.generate samples.bg_request samples.queue_down
  = (Raise ConnectionError, samples.queue_down).
Proof. apply generate_enqueue_queue_down; vm_compute; reflexivity. Qed.

Example index_db_down_raises :
  views.index samples.index_request samples.db_down
  = (Raise OperationalError, samples.db_down).
Proof. apply index_db_down; vm_compute; reflexivity. Qed.

(** ** Choosing the branch *)

Lemma truthy_bg_requested (request : HttpRequest) :
  python.truthy (django.QueryDict_get (GET request) "bg") = true
  ↔ bg_requested request.
Proof.
  unfold bg_requested, python.truthy.
  destruct (django.QueryDict_get (GET request) "bg") as [v|].
  - destruct (String.eqb_spec v "") as [->|Hne]; simpl.
    + split; [done|]. intros (v & [= <-] & Hv). done.
    + split; [|done]. intros _. by exists v.
  - split; [done|]. by intros (v & ? & _).
Qed.

Lemma snoc_not_self {A} (l : list A) (x : A) : (l ++ [x])%list ≠ l.
Proof.
  intros E. apply (f_equal length) in E. rewrite length_app in E.
  simpl in E. lia.
Qed.

(** C8. With the store well formed, the database and the queue
    reachable and the id sequence not used up, the generate handler
    takes the background branch (one job
    more on the queue, the table untouched, the background notice)
    exactly when the [bg] parameter is present with a non-empty value;
    otherwise, so in particular when [bg] is absent or blank, it takes the
    synchronous branch (queue untouched, one row more, the plain notice).
    Either way it answers with a redirect to the list view, which is the
    root path; the handler is the one routed at /generate. *)
Theorem generate_selects_mode (request : HttpRequest) (w : World) :
  wf w →
  db_up w = true →
  queue_up w = true →
  secret_id_seq w ≤ django.AutoField_max →
  (queue (exec (views.generate request) w)
   = (queue w ++ [Job_generate_bg])%list ↔ bg_requested request)
  ∧ (bg_requested request →
     secrets (exec (views.generate request) w) = secrets w
     ∧ flashed (exec (views.generate request) w)
       = (flashed w ++
          [(SUCCESS,
            "Generating new key in background. Refresh page after two seconds to see generated key.")])%list)
  ∧ (¬ bg_requested request →
     queue (exec (views.generate request) w) = queue w
     ∧ size (secrets (exec (views.generate request) w)) = S (size (secrets w))
     ∧ flashed (exec (views.generate request) w)
       = (flashed w ++ [(SUCCESS, "Generated new key.")])%list)
  ∧ (GET request !! "bg" = None → ¬ bg_requested request)
  ∧ (GET request !! "bg" = Some [""] → ¬ bg_requested request)
  ∧ outcome (views.generate request) w = Return (HttpResponseRedirect "/")
  ∧ urls.reverse "home" = Some "/"
  ∧ urls.resolve "/" = Some urls.views_index
  ∧ urls.resolve "/generate" = Some urls.views_generate.
Proof.
  intros Hwf Hdb Hq Hmax. pose proof (wf_fresh w Hwf) as Hfresh.
  pose proof (truthy_bg_requested request) as Hiff.
  assert (GET request !! "bg" = None → ¬ bg_requested request) as Habsent.
  { intros E (v & Hv & _). unfold django.QueryDict_get in Hv.
    by rewrite E in Hv. }
  assert (GET request !! "bg" = Some [""] → ¬ bg_requested request) as Hblank.
  { intros E (v & Hv & Hne). unfold django.QueryDict_get in Hv.
    rewrite E in Hv. simpl in Hv. congruence. }
  unfold exec, outcome.
  destruct (python.truthy (django.QueryDict_get (GET request) "bg")) eqn:Hbg.
  - assert (bg_requested request) as Hreq by by apply Hiff.
    rewrite (generate_enqueue_spec request w Hq Hbg). simpl.
    split; [done|]. split; [done|]. split; [done|]. done.
  - assert (¬ bg_requested request) as Hreq.
    { intros H. apply Hiff in H. done. }
    destruct (generate_sync_spec request w Hdb Hfresh Hmax Hbg)
      as (k & _ & _ & ->).
    simpl. split.
    { split; [|done]. intros E. symmetry in E. by apply snoc_not_self in E. }
    split; [done|]. split; [|done].
    intros _. split; [done|]. split; [|done]. by apply map_size_insert_None.
Qed.

Lemma generate_selects_mode_witness :
  queue (exec (views.generate samples.bg_request) samples.busy)
  = [Job_generate_bg]
  ∧ queue (exec (views.generate samples.blank_bg_request) samples.busy) = []
  ∧ size (secrets (exec (views.generate samples.blank_bg_request)
                     samples.busy)) = 4%nat.
Proof.
  split.
  - destruct (generate_selects_mode samples.bg_request samples.busy)
      as [Hbg _];
      [exact busy_wf | vm_compute; reflexivity | vm_compute; reflexivity
       | exact busy_ids_left |].
    apply Hbg. exists "1". split; [vm_compute; reflexivity | discriminate].
  - destruct (generate_selects_mode samples.blank_bg_request samples.busy)
      as (_ & _ & Hsync & _ & Hblank & _);
      [exact busy_wf | vm_compute; reflexivity | vm_compute; reflexivity
       | exact busy_ids_left |].
    destruct Hsync as (Hq & Hsize & _).
    + apply Hblank. vm_compute. reflexivity.
    + split; [exact Hq|]. rewrite Hsize. vm_compute. reflexivity.
Defined.

(** A parameter given twice counts with its last value. *)
Example bg_given_twice_last_value_read :
  django.QueryDict_get
    (GET (request_of "/generate" [("bg", ["1"; ""])])) "bg" = Some ""
  ∧ django.QueryDict_get
      (GET (request_of "/generate" [("bg", [""; "1"])])) "bg" = Some "1".
Proof. split; vm_compute; reflexivity. Qed.

Example bg_zero_is_background :
  queue (exec (views.generate (request_of "/generate" [("bg", ["0"])]))
           samples.busy)
  = [Job_generate_bg].
Proof. vm_compute. reflexivity. Qed.

(** * Further properties of the handlers *)

(** ** How a create call can end *)

Lemma generate_enqueue_cases (request : HttpRequest) w :
  python.truthy (django.QueryDict_get (GET request) "bg") = true →
  views.generate request w
  = if queue_up w
    then (Return (HttpResponseRedirect "/"),
          flash notice_bg (set_queue (queue w ++ [Job_generate_bg]) w))
    else (Raise ConnectionError, w).
Proof.
  intros Hbg. destruct (queue_up w) eqn:Hq.
  - by apply generate_enqueue_spec.
  - by apply generate_enqueue_queue_down.
Qed.

Lemma delete_cases (request : HttpRequest) w :
  views.delete request w
  = if db_up w
    then (Return (HttpResponseRedirect "/"),
          flash notice_delete (set_secrets ∅ w))
    else (Raise OperationalError, w).
Proof.
  destruct (db_up w) eqn:Hdb.
  - by apply delete_spec.
  - by apply delete_db_down.
Qed.

Lemma index_cases (request : HttpRequest) w :
  views.index request w
  = if db_up w
    then (Return (TemplateResponse "keygen/index.html"
            [("secrets",
              merge_sort models.ordering (map_to_list (secrets w)).*2)]), w)
    else (Raise OperationalError, w).
Proof.
  destruct (db_up w) eqn:Hdb.
  - by apply index_spec.
  - by apply index_db_down.
Qed.

(** ** A request that fails *)

(** X1. A handler that raises, for whatever reason, has changed neither
    the table nor the queue nor the notices. *)
Theorem failed_request_changes_nothing (c : urls.Callback)
        (request : HttpRequest) (w : World) (e : Exception) :
  outcome (server.callback c request) w = Raise e →
  secrets (exec (server.callback c request) w) = secrets w
  ∧ queue (exec (server.callback c request) w) = queue w
  ∧ flashed (exec (server.callback c request) w) = flashed w.
Proof.
  unfold outcome, exec. destruct c; simpl.
  - rewrite index_cases. by destruct (db_up w).
  - destruct (python.truthy (django.QueryDict_get (GET request) "bg")) eqn:Hbg.
    + rewrite generate_enqueue_cases by done. by destruct (queue_up w).
    + destruct (django.Secret_objects_create None w) as [[row|e'] w'] eqn:E.
      * by rewrite (generate_sync_Return request w row w' Hbg E).
      * rewrite (generate_sync_Raise request w e' w' Hbg E). simpl. intros _.
        apply Secret_objects_create_Raise in E. tauto.
  - rewrite delete_cases. by destruct (db_up w).
Qed.

Lemma failed_request_changes_nothing_witness :
  secrets (exec (views.generate samples.sync_request) samples.db_down)
  = secrets samples.db_down.
Proof.
  destruct (failed_request_changes_nothing urls.views_generate
              samples.sync_request samples.db_down OperationalError)
    as [H _]; [vm_compute; reflexivity | exact H].
Defined.

(** ** What comes with each answer *)

(** X2. Whenever a handler returns, it is either the list view, which
    returns its page and has changed nothing, or generate or delete,
    which return the redirect to the root path and have added exactly
    one notice; no handler returns anything else. *)
Theorem returned_response_and_notice (c : urls.Callback)
        (request : HttpRequest) (w : World) (response : HttpResponse) :
  outcome (server.callback c request) w = Return response →
  (c = urls.views_index
   ∧ (∃ rows, response
              = TemplateResponse "keygen/index.html" [("secrets", rows)])
   ∧ exec (server.callback c request) w = w)
  ∨ (c ≠ urls.views_index
     ∧ response = HttpResponseRedirect "/"
     ∧ ∃ text, flashed (exec (server.callback c request) w)
               = (flashed w ++ [(SUCCESS, text)])%list).
Proof.
  unfold outcome, exec. destruct c; simpl.
  - rewrite index_cases. destruct (db_up w); simpl; [|done].
    intros [= <-]. left. eauto.
  - intros H. right. split; [done|]. revert H.
    destruct (python.truthy (django.QueryDict_get (GET request) "bg")) eqn:Hbg.
    + rewrite generate_enqueue_cases by done.
      destruct (queue_up w); simpl; [|done]. intros [= <-]. eauto.
    + destruct (django.Secret_objects_create None w) as [[row|e'] w'] eqn:E.
      * rewrite (generate_sync_Return request w row w' Hbg E). simpl.
        intros [= <-]. split; [done|].
        apply Secret_objects_create_Return
          in E as (k & _ & _ & _ & _ & _ & ->).
        eauto.
      * by rewrite (generate_sync_Raise request w e' w' Hbg E).
  - intros H. right. split; [done|]. revert H. rewrite delete_cases.
    destruct (db_up w); simpl; [|done]. intros [= <-]. eauto.
Qed.

Lemma returned_response_and_notice_witness :
  ∃ text, flashed (exec (views.delete samples.delete_request) samples.busy)
          = (flashed samples.busy ++ [(SUCCESS, text)])%list.
Proof.
  destruct (returned_response_and_notice urls.views_delete
              samples.delete_request samples.busy (HttpResponseRedirect "/"))
    as [(Hc & _)|(_ & _ & H)]; [vm_compute; reflexivity | | exact H].
  discriminate Hc.
Defined.

(** ** Creating keeps what is there *)

(** X3. From any store, neither the generate handler, in either mode
    and whether or not the database and the queue can be reached, nor the
    background job removes or alters a stored row. *)
Theorem generate_keeps_rows (request : HttpRequest) (w : World) :
  secrets w ⊆ secrets (exec (views.generate request) w)
  ∧ secrets w ⊆ secrets (exec views.generate_bg w).
Proof.
  unfold exec. split.
  - destruct (python.truthy (django.QueryDict_get (GET request) "bg")) eqn:Hbg.
    + rewrite generate_enqueue_cases by done. by destruct (queue_up w).
    + destruct (django.Secret_objects_create None w) as [[row|e'] w'] eqn:E.
      * rewrite (generate_sync_Return request w row w' Hbg E).
        apply Secret_objects_create_Return
          in E as (k & _ & _ & Hfresh & _ & _ & ->).
        simpl. by apply insert_subseteq.
      * rewrite (generate_sync_Raise request w e' w' Hbg E). simpl.
        apply Secret_objects_create_Raise in E as (-> & _). done.
  - destruct (django.Secret_objects_create None
                (set_clock (clock w + 2000000) w)) as [[row|e'] w'] eqn:E.
    + rewrite (generate_bg_Return w row w' E).
      apply Secret_objects_create_Return
        in E as (k & _ & _ & Hfresh & _ & _ & ->).
      simpl. by apply insert_subseteq.
    + rewrite (generate_bg_Raise w e' w' E). simpl.
      apply Secret_objects_create_Raise in E as (-> & _). done.
Qed.

(** ** Starting over *)

(** X4. With the database reachable and the id sequence not used up,
    whatever the store held: after a delete the list view shows an empty
    list, and a synchronous generate right after a delete leaves exactly
    one row. *)
Theorem delete_then_start_over (request request' : HttpRequest) (w : World) :
  db_up w = true →
  secret_id_seq w ≤ django.AutoField_max →
  python.truthy (django.QueryDict_get (GET request') "bg") = false →
  outcome (views.index request') (exec (views.delete request) w)
  = Return (TemplateResponse "keygen/index.html" [("secrets", [])])
  ∧ size (secrets (exec (views.generate request')
                     (exec (views.delete request) w))) = 1%nat.
Proof.
  intros Hdb Hmax Hbg. unfold exec, outcome.
  rewrite (delete_spec request w Hdb). simpl. split.
  - rewrite index_spec by done. simpl. by rewrite map_to_list_empty.
  - destruct (generate_sync_spec request'
                (flash notice_delete (set_secrets ∅ w)))
      as (k & _ & _ & ->); [done | apply lookup_empty | done | done |].
    simpl. by rewrite map_size_insert_None, map_size_empty by apply lookup_empty.
Qed.

Lemma delete_then_start_over_witness :
  size (secrets (exec (views.generate samples.sync_request)
                   (exec (views.delete samples.delete_request) samples.busy)))
  = 1%nat.
Proof.
  destruct (delete_then_start_over samples.delete_request samples.sync_request
              samples.busy) as [_ H];
    [vm_compute; reflexivity | exact busy_ids_left | vm_compute; reflexivity
     | exact H].
Defined.

(** ** The newest key on top *)

Lemma listed_rows_stored (w : World) (r : models.Secret) :
  r ∈ merge_sort models.ordering (map_to_list (secrets w)).*2
  ↔ ∃ i, secrets w !! i = Some r.
Proof.
  rewrite (merge_sort_Permutation models.ordering). split.
  - intros Hin. apply list_elem_of_fmap in Hin as [[i r'] [-> Hin]].
    exists i. by apply elem_of_map_to_list.
  - intros [i Hi]. apply list_elem_of_fmap.
    exists (i, r). split; [done|]. by apply elem_of_map_to_list.
Qed.

(** X5. When every stored row was created before the present clock
    reading and the id sequence is not used up, the row a synchronous
    generate adds is the first one the list view shows afterwards. *)
Theorem new_key_listed_first (request request' : HttpRequest) (w : World) :
  wf w →
  db_up w = true →
  secret_id_seq w ≤ django.AutoField_max →
  python.truthy (django.QueryDict_get (GET request) "bg") = false →
  (∀ i r, secrets w !! i = Some r → models.created r < clock w) →
  ∃ k rest,
    outcome django.get_random_secret_key w = Return k
    ∧ outcome (views.index request') (exec (views.generate request) w)
      = Return (TemplateResponse "keygen/index.html"
          [("secrets",
            models.mkSecret (secret_id_seq w) (clock w) k :: rest)]).
Proof.
  intros Hwf Hdb Hmax Hbg Hpast. pose proof (wf_fresh w Hwf) as Hfresh.
  destruct (generate_sync_spec request w Hdb Hfresh Hmax Hbg)
    as (k & Hk & _ & E).
  unfold exec, outcome. rewrite E, Hk. simpl.
  set (w' := flash notice_sync (created_world k w)).
  set (new := models.mkSecret (secret_id_seq w) (clock w) k).
  rewrite (index_spec request' w') by done.
  remember (merge_sort models.ordering (map_to_list (secrets w')).*2)
    as rows eqn:Erows.
  simpl.
  assert (new ∈ rows) as Hnew.
  { rewrite Erows. apply listed_rows_stored.
    exists (secret_id_seq w). apply lookup_insert_eq. }
  assert (StronglySorted models.ordering rows) as Hsorted
    by (rewrite Erows; apply StronglySorted_merge_sort; apply _).
  assert (∀ r, r ∈ rows → r = new ∨ models.created r < clock w) as Hrows.
  { intros r Hr. rewrite Erows in Hr.
    apply listed_rows_stored in Hr as [i Hi]. simpl in Hi.
    destruct (decide (secret_id_seq w = i)) as [<-|Hne].
    - rewrite lookup_insert_eq in Hi. left. injection Hi as Hi. by rewrite <- Hi.
    - rewrite lookup_insert_ne in Hi by done. right. by apply Hpast in Hi. }
  destruct rows as [|h rest]; [by apply elem_of_nil in Hnew|].
  exists k, rest. split; [done|].
  destruct (Hrows h (list_elem_of_here h rest)) as [->|Hold]; [done|].
  apply elem_of_cons in Hnew as [E2|Hin]; [by subst h|].
  apply StronglySorted_inv in Hsorted as [_ Hall].
  rewrite Forall_forall in Hall. apply Hall in Hin.
  unfold models.ordering, new in Hin. simpl in Hin. lia.
Qed.

Lemma later_wf : wf later.
Proof. refine (bool_decide_unpack (wf later) _). vm_compute. exact I. Defined.

Lemma new_key_listed_first_witness :
  ∃ k rest,
    outcome (views.index samples.index_request)
      (exec (views.generate samples.sync_request) later)
    = Return (TemplateResponse "keygen/index.html"
        [("secrets",
          models.mkSecret (secret_id_seq later) (clock later) k :: rest)]).
Proof.
  destruct (new_key_listed_first samples.sync_request samples.index_request
              later) as (k & rest & _ & H).
  - exact later_wf.
  - vm_compute. reflexivity.
  - vm_compute. discriminate.
  - vm_compute. reflexivity.
  - refine (bool_decide_unpack
              (map_Forall (λ _ r, models.created r < clock later)
                 (secrets later)) _).
    vm_compute. exact I.
  - exists k, rest. exact H.
Defined.

(** X6. From a well-formed store, the ids of the rows the list view
    shows are pairwise distinct. *)
Theorem index_ids_distinct (request : HttpRequest) (w : World) :
  wf w →
  db_up w = true →
  ∃ rows,
    outcome (views.index request) w
    = Return (TemplateResponse "keygen/index.html" [("secrets", rows)])
    ∧ NoDup (models.id <$> rows).
Proof.
  intros Hwf Hdb. eexists. unfold outcome.
  rewrite (index_spec request w Hdb). simpl. split; [done|].
  rewrite (merge_sort_Permutation models.ordering).
  assert (models.id <$> (map_to_list (secrets w)).*2
          = (map_to_list (secrets w)).*1) as ->.
  { rewrite <- list_fmap_compose. apply list_fmap_ext.
    intros n [i r] Hin. simpl. apply list_elem_of_lookup_2 in Hin.
    apply elem_of_map_to_list in Hin. apply Hwf in Hin. tauto. }
  apply NoDup_fst_map_to_list.
Qed.

Lemma index_ids_distinct_witness :
  ∃ rows,
    outcome (views.index samples.index_request) samples.busy
    = Return (TemplateResponse "keygen/index.html" [("secrets", rows)])
    ∧ NoDup (models.id <$> rows).
Proof.
  destruct (index_ids_distinct samples.index_request samples.busy busy_wf)
    as (rows & H); [vm_compute; reflexivity|].
  exists rows. exact H.
Defined.

(** ** What one step does, in full *)

Lemma callback_step_kind c (request : HttpRequest) w :
  wf w → step_kind w (exec (server.callback c request) w).
Proof.
  intros Hwf. pose proof (wf_fresh w Hwf) as Hfresh. unfold exec.
  destruct c; simpl.
  - rewrite index_cases. destruct (db_up w); by apply step_keeps.
  - destruct (python.truthy (django.QueryDict_get (GET request) "bg")) eqn:Hbg.
    + rewrite generate_enqueue_cases by done.
      destruct (queue_up w); by apply step_keeps.
    + destruct (django.Secret_objects_create None w) as [[row|e] w'] eqn:E.
      * rewrite (generate_sync_Return request w row w' Hbg E).
        apply Secret_objects_create_Return
          in E as (k & Hlen & _ & _ & _ & _ & ->).
        by apply (step_inserts _ _ k (clock w)).
      * rewrite (generate_sync_Raise request w e w' Hbg E).
        apply Secret_objects_create_Raise in E as (_ & _ & _ & _ & ->);
          [|done].
        by apply step_keeps.
  - rewrite delete_cases. destruct (db_up w).
    + by apply step_empties.
    + by apply step_keeps.
Qed.

Lemma work_step_kind w : wf w → step_kind w (exec server.work w).
Proof.
  intros Hwf. pose proof (wf_fresh w Hwf) as Hfresh.
  unfold exec, server.work.
  destruct (queue_up w); simpl; [|by apply step_keeps].
  destruct (queue w) as [|[] q]; simpl; [by apply step_keeps|].
  destruct (django.Secret_objects_create None
              (set_clock (clock w + 2000000) (set_queue q w)))
    as [[row|e] w'] eqn:E.
  - rewrite (generate_bg_Return (set_queue q w) row w' E).
    apply Secret_objects_create_Return
      in E as (k & Hlen & _ & _ & _ & _ & ->).
    by apply (step_inserts _ _ k (clock w + 2000000)).
  - rewrite (generate_bg_Raise (set_queue q w) e w' E).
    apply Secret_objects_create_Raise in E as (_ & _ & _ & _ & ->); [|done].
    by apply step_keeps.
Qed.

Lemma step_step_kind e w : wf w → step_kind w (server.step e w).
Proof.
  intros Hwf. destruct e as [request| |micros|d q]; simpl.
  - unfold server.get_response.
    destruct (urls.resolve (path_info request)) as [c|].
    + by apply callback_step_kind.
    + by apply step_keeps.
  - by apply work_step_kind.
  - by apply step_keeps.
  - by apply step_keeps.
Qed.

Lemma step_kind_wf w w' : wf w → step_kind w w' → wf w'.
Proof.
  unfold wf.
  intros Hwf [Hs Hn|Hs Hn|k t _ Hfresh Hs Hn]; rewrite Hs, Hn.
  - done.
  - apply map_Forall_empty.
  - apply map_Forall_insert_2; [split; [done|lia]|].
    eapply map_Forall_impl; [exact Hwf|]. simpl. intros i r [? ?].
    split; [done|lia].
Qed.

Lemma step_kind_seq w w' :
  step_kind w w' → secret_id_seq w ≤ secret_id_seq w'.
Proof. intros [Hs Hn|Hs Hn|k t _ Hfresh Hs Hn]; lia. Qed.

Lemma run_app es1 es2 w :
  server.run (es1 ++ es2) w = server.run es2 (server.run es1 w).
Proof. revert w. induction es1 as [|e es1 IH]; intros w; simpl; [done|apply IH]. Qed.

(** ** The keys on the page *)

Lemma step_kind_keys_full w w' : keys_full w → step_kind w w' → keys_full w'.
Proof.
  unfold keys_full.
  intros Hfull [Hs _|Hs _|k t Hlen _ Hs _]; rewrite Hs.
  - done.
  - apply map_Forall_empty.
  - by apply map_Forall_insert_2.
Qed.

(** X7. Along every sequence of events from a well-formed store whose
    rows all print as 50 characters, every row still prints as 50
    characters; a freshly migrated system is such a store. *)
Theorem keys_stay_full (es : list server.Event) (w : World) :
  wf w →
  keys_full w →
  keys_full (server.run es w)
  ∧ (∀ i r, secrets (server.run es w) !! i = Some r →
            String.length (models.__str__ r) = 50%nat
            ∧ (String.length (models.__str__ r) ≤ models.key_max_length)%nat)
  ∧ (∀ t e, wf (server.fresh t e) ∧ keys_full (server.fresh t e)).
Proof.
  intros Hwf Hfull.
  assert (wf (server.run es w) ∧ keys_full (server.run es w)) as [_ H].
  { revert w Hwf Hfull. induction es as [|e es IH]; intros w Hwf Hfull; simpl.
    - done.
    - pose proof (step_step_kind e w Hwf) as Hstep.
      apply IH; [by eapply step_kind_wf | by eapply step_kind_keys_full]. }
  split; [done|]. split.
  - intros i r Hr. apply H in Hr. unfold models.key_max_length.
    split; [done|lia].
  - intros t e. split; apply map_Forall_empty.
Qed.

Lemma busy_keys_full : keys_full samples.busy.
Proof.
  refine (bool_decide_unpack (keys_full samples.busy) _). vm_compute. exact I.
Defined.

Lemma keys_stay_full_witness :
  keys_full (server.run [server.Request samples.bg_request; server.Work]
               samples.busy).
Proof.
  destruct (keys_stay_full [server.Request samples.bg_request; server.Work]
              samples.busy busy_wf busy_keys_full) as [H _].
  exact H.
Defined.

(** ** Ids are never handed out twice *)

Lemma run_seq es w :
  wf w → secret_id_seq w ≤ secret_id_seq (server.run es w).
Proof.
  revert w. induction es as [|e es IH]; intros w Hwf; simpl; [lia|].
  pose proof (step_step_kind e w Hwf) as Hstep.
  pose proof (step_kind_seq _ _ Hstep).
  pose proof (IH (server.step e w) (step_kind_wf _ _ Hwf Hstep)). lia.
Qed.

(** X9. After any sequence of events from a well-formed store, a row in
    the table is either a row that was there at the start, unchanged, or
    a row under an id that the sequence had not yet handed out at the
    start; the store is still well formed and the sequence has not gone
    back. *)
Theorem rows_original_or_new (es : list server.Event) (w : World)
        (i : Z) (r : models.Secret) :
  wf w →
  secrets (server.run es w) !! i = Some r →
  (secrets w !! i = Some r
   ∨ (secrets w !! i = None
      ∧ secret_id_seq w ≤ i ∧ i < secret_id_seq (server.run es w)))
  ∧ models.id r = i
  ∧ wf (server.run es w)
  ∧ secret_id_seq w ≤ secret_id_seq (server.run es w).
Proof.
  intros Hwf Hr. pose proof (run_wf es w Hwf) as Hwf'.
  destruct (Hwf' i r Hr) as [Hid Hlt].
  split; [|by auto using run_seq].
  destruct (decide (i < secret_id_seq w)) as [Hi|Hi].
  - left. destruct (run_old_rows es w i Hwf Hi) as [E|E]; congruence.
  - right. split; [|lia].
    destruct (secrets w !! i) as [r'|] eqn:E; [|done].
    apply Hwf in E. lia.
Qed.

Lemma rows_original_or_new_witness :
  ∃ r,
    secrets (server.run [server.Request samples.delete_request;
                         server.Request samples.sync_request]
               samples.busy) !! 4 = Some r
    ∧ models.id r = 4.
Proof.
  assert (is_Some (secrets (server.run [server.Request samples.delete_request;
                                        server.Request samples.sync_request]
                              samples.busy) !! 4)) as [r E].
  { vm_compute. eexists. reflexivity. }
  exists r. split; [exact E|].
  destruct (rows_original_or_new _ samples.busy 4 r busy_wf E) as (_ & H & _).
  exact H.
Defined.

(** ** Many requests in a row *)

Lemma sync_request_step (request : HttpRequest) w :
  path_info request = "/generate" →
  python.truthy (django.QueryDict_get (GET request) "bg") = false →
  wf w → db_up w = true →
  secret_id_seq w ≤ django.AutoField_max →
  ∃ k, server.step (server.Request request) w
       = flash notice_sync (created_world k w).
Proof.
  intros Hpath Hbg Hwf Hdb Hmax. simpl. unfold server.get_response, exec.
  rewrite Hpath. simpl.
  destruct (generate_sync_spec request w Hdb (wf_fresh w Hwf) Hmax Hbg)
    as (k & _ & _ & ->).
  by exists k.
Qed.

(** X10. From a well-formed store with the database reachable and at
    least [n] ids left in the sequence, [n] synchronous requests to
    /generate in a row add exactly [n] rows, use up exactly [n] ids and
    leave the queue alone. *)
Theorem sync_requests_add_up (n : nat) (request : HttpRequest) (w : World) :
  path_info request = "/generate" →
  python.truthy (django.QueryDict_get (GET request) "bg") = false →
  wf w →
  db_up w = true →
  secret_id_seq w + Z.of_nat n ≤ django.AutoField_max + 1 →
  size (secrets (server.run (replicate n (server.Request request)) w))
  = (size (secrets w) + n)%nat
  ∧ secret_id_seq (server.run (replicate n (server.Request request)) w)
    = secret_id_seq w + Z.of_nat n
  ∧ queue (server.run (replicate n (server.Request request)) w) = queue w.
Proof.
  intros Hpath Hbg. revert w.
  induction n as [|n IH]; intros w Hwf Hdb Hmax.
  - simpl. repeat split; lia.
  - cbn [replicate server.run].
    destruct (sync_request_step request w Hpath Hbg Hwf Hdb) as [k Hk];
      [lia|].
    pose proof (step_kind_wf _ _ Hwf
                  (step_step_kind (server.Request request) w Hwf)) as Hwf'.
    rewrite Hk in *.
    destruct (IH _ Hwf' Hdb) as (Hsize & Hseq & Hq); [simpl; lia|].
    rewrite Hsize, Hseq, Hq. simpl.
    rewrite map_size_insert_None by by apply wf_fresh.
    repeat split; lia.
Qed.

Lemma sync_requests_add_up_witness :
  size (secrets (server.run
                   (replicate 3 (server.Request samples.sync_request))
                   samples.busy))
  = (size (secrets samples.busy) + 3)%nat.
Proof.
  destruct (sync_requests_add_up 3 samples.sync_request samples.busy)
    as [H _];
    [vm_compute; reflexivity | vm_compute; reflexivity | exact busy_wf
     | vm_compute; reflexivity | vm_compute; discriminate | exact H].
Defined.

Lemma bg_requests_queue (n : nat) (request : HttpRequest) w :
  path_info request = "/generate" →
  python.truthy (django.QueryDict_get (GET request) "bg") = true →
  queue_up w = true →
  secrets (server.run (replicate n (server.Request request)) w) = secrets w
  ∧ secret_id_seq (server.run (replicate n (server.Request request)) w)
    = secret_id_seq w
  ∧ db_up (server.run (replicate n (server.Request request)) w) = db_up w
  ∧ queue_up (server.run (replicate n (server.Request request)) w) = true
  ∧ queue (server.run (replicate n (server.Request request)) w)
    = (queue w ++ replicate n Job_generate_bg)%list.
Proof.
  intros Hpath Hbg. revert w. induction n as [|n IH]; intros w Hq.
  - simpl. by rewrite app_nil_r.
  - cbn [replicate server.run].
    assert (server.step (server.Request request) w
            = flash notice_bg (set_queue (queue w ++ [Job_generate_bg]) w))
      as ->.
    { simpl. unfold server.get_response, exec. rewrite Hpath. simpl.
      by rewrite (generate_enqueue_spec request w Hq Hbg). }
    destruct (IH (flash notice_bg
                    (set_queue (queue w ++ [Job_generate_bg]) w)) Hq)
      as (-> & -> & -> & -> & ->).
    simpl. by rewrite <- app_assoc.
Qed.

Lemma works_drain_queue (m : nat) w :
  wf w → db_up w = true → queue_up w = true →
  length (queue w) = m →
  secret_id_seq w + Z.of_nat m ≤ django.AutoField_max + 1 →
  size (secrets (server.run (replicate m server.Work) w))
  = (size (secrets w) + m)%nat
  ∧ queue (server.run (replicate m server.Work) w) = [].
Proof.
  revert w. induction m as [|m IH]; intros w Hwf Hdb Hq Hlen Hmax.
  - simpl. split; [lia|]. by destruct (queue w).
  - cbn [replicate server.run].
    pose proof (step_kind_wf _ _ Hwf (step_step_kind server.Work w Hwf))
      as Hwf'.
    revert Hwf'. simpl. unfold exec, server.work. rewrite Hq. simpl.
    destruct (queue w) as [|[] q] eqn:Eq; [done|]. simpl.
    destruct (generate_bg_spec (set_queue q w) Hdb (wf_fresh w Hwf))
      as (k & _ & _ & ->); [simpl; lia|].
    simpl. intros Hwf'.
    destruct (IH _ Hwf' Hdb Hq) as [Hsize Hqueue].
    { simpl. simpl in Hlen. lia. }
    { simpl. lia. }
    rewrite Hsize, Hqueue. simpl.
    rewrite map_size_insert_None by by apply wf_fresh.
    split; [lia|done].
Qed.

(** X11. From a well-formed store with the database and the queue
    reachable and an id left in the sequence for every job, [n]
    background requests to /generate followed by as many runs of the
    worker as there are jobs then queued add one row for each job and
    leave the queue empty; the requests alone add none. *)
Theorem bg_requests_then_worker (n : nat) (request : HttpRequest)
        (w : World) :
  path_info request = "/generate" →
  python.truthy (django.QueryDict_get (GET request) "bg") = true →
  wf w →
  db_up w = true →
  queue_up w = true →
  secret_id_seq w + Z.of_nat (length (queue w) + n)
  ≤ django.AutoField_max + 1 →
  secrets (server.run (replicate n (server.Request request)) w) = secrets w
  ∧ size (secrets
            (server.run (replicate n (server.Request request)
                         ++ replicate (length (queue w) + n) server.Work) w))
    = (size (secrets w) + length (queue w) + n)%nat
  ∧ queue (server.run (replicate n (server.Request request)
                       ++ replicate (length (queue w) + n) server.Work) w)
    = [].
Proof.
  intros Hpath Hbg Hwf Hdb Hq Hmax.
  destruct (bg_requests_queue n request w Hpath Hbg Hq)
    as (Hs & Hseq & Hdb' & Hq' & Hqueue).
  split; [done|]. rewrite run_app.
  set (w' := server.run (replicate n (server.Request request)) w) in *.
  assert (wf w') as Hwf'.
  { unfold wf. by rewrite Hs, Hseq. }
  destruct (works_drain_queue (length (queue w) + n) w') as [Hsize Hempty].
  - done.
  - by rewrite Hdb'.
  - done.
  - rewrite Hqueue, length_app, length_replicate. done.
  - by rewrite Hseq.
  - rewrite Hsize, Hempty, Hs. split; [lia|done].
Qed.

Lemma bg_requests_then_worker_witness :
  size (secrets
          (server.run (replicate 2 (server.Request samples.bg_request)
                       ++ replicate (length (queue samples.busy) + 2)
                            server.Work) samples.busy))
  = (size (secrets samples.busy) + length (queue samples.busy) + 2)%nat.
Proof.
  destruct (bg_requests_then_worker 2 samples.bg_request samples.busy)
    as (_ & H & _);
    [vm_compute; reflexivity | vm_compute; reflexivity | exact busy_wf
     | vm_compute; reflexivity | vm_compute; reflexivity
     | vm_compute; discriminate | exact H].
Defined.

(** ** Routes and their names *)





Example redirect_to_a_url :
  urls.redirect "/elsewhere" = mret (HttpResponseRedirect "/elsewhere")
  ∧ urls.redirect "example.org" = mret (HttpResponseRedirect "example.org")
  ∧ urls.redirect "../up" = mret (HttpResponseRedirect "../up")
  ∧ urls.redirect "nowhere" = raise NoReverseMatch.
Proof. repeat split. Qed.



Example unknown_paths_do_not_resolve :
  urls.resolve "generate" = None
  ∧ urls.resolve "/generate/" = None
  ∧ urls.resolve "/Generate" = None
  ∧ urls.resolve "" = None.
Proof. repeat split. Qed.

(** ** A key given by the caller *)



(** Fifty letters and a space are stored as the fifty letters; fifty
    letters and one more letter are refused; fifty two-byte characters
    fit. *)
Example varchar_edges :
  django.varchar 50
    "cccccccccccccccccccccccccccccccccccccccccccccccccc "
  = Some "cccccccccccccccccccccccccccccccccccccccccccccccccc"
  ∧ django.varchar 50
      "cccccccccccccccccccccccccccccccccccccccccccccccccccx"
    = None
  ∧ django.char_length
      "éééééééééééééééééééééééééééééééééééééééééééééééééé" = 50%nat
  ∧ String.length
      "éééééééééééééééééééééééééééééééééééééééééééééééééé" = 100%nat.
Proof. repeat split. Qed.
